(** * Log-throughput orchestration of the replication tests

    A shallow embedding of
    [script/testing/replication/log_throughput/log_throughput.py]:
    the orchestrator [log_throughput], the node factory [get_servers],
    the synchronisation step [sync_servers] and the aggregation
    [aggregate_log_throughput].

    Python statements become computations in a small state-and-exception
    monad over a [World] that holds the module-global [METRICS_FILES] list,
    the metrics and results directories, the set of live server processes
    and the trace of externally visible calls.  Integers are unbounded
    ([Z]); the one floating-point value of the program, the average
    throughput, is kept as an exact rational (or a non-finite value when the
    divisor is zero), so rounding is not modelled. *)

From Stdlib Require Import ZArith QArith Lia Sorted.
From stdpp Require Import base option list gmap strings pretty.

Local Open Scope Z_scope.

(** ** Python exceptions *)

(** The exception classes the program raises or catches, with the two
    [isinstance] tests its [except] clauses perform.  [SystemExit] and
    [KeyboardInterrupt] derive from [BaseException] only; the test utilities
    of the repository raise plain [Exception] and call [sys.exit]. *)
Inductive PyExcClass :=
| RuntimeError
| ValueError
| IndexError
| FileNotFoundError
| Exception
| SystemExit
| KeyboardInterrupt.

Record PyExc := mkExc { exc_class : PyExcClass; exc_msg : string }.

Definition is_RuntimeError (e : PyExc) : bool :=
  match exc_class e with
  | RuntimeError => true
  | _ => false
  end.

Definition is_Exception (e : PyExc) : bool :=
  match exc_class e with
  | SystemExit | KeyboardInterrupt => false
  | _ => true
  end.

(** ** Data model *)

(** One row of a metrics csv file: the columns [METRICS_START_TIME_COL],
    [METRICS_ELAPSED_TIME_COL] (microseconds) and
    [METRICS_NUM_RECORDS_COL]. *)
Record MetricsRecord := mkRecord {
  start_time : Z;
  elapsed_time : Z;
  num_records : Z
}.

(** [test_type.py] is not among the sources; its two members and their
    values are those [__main__.py] passes as the choices of [test-type]. *)
Inductive TestType := PRIMARY | REPLICA.

Definition value (t : TestType) : string :=
  match t with
  | PRIMARY => "primary"%string
  | REPLICA => "replica"%string
  end.

(** Modelled from the spec: [node_server.py] ([NodeServer], [PrimaryNode],
    [ReplicaNode]) is not among the sources.  A node is the tagged variant
    of the spec, built from the arguments [get_servers] passes to the two
    constructors; [oid] stands for the identity of the Python object. *)
Inductive NodeServer :=
| PrimaryNode (oid : nat) (build_type : string) (replication_enabled async_commit : bool)
    (oltp_benchmark : string) (scale_factor connection_threads : Z)
| ReplicaNode (oid : nat) (test_type : TestType) (build_type : string) (async_commit : bool)
    (log_messages_file : string) (connection_threads : Z).

Definition node_id (s : NodeServer) : nat :=
  match s with
  | PrimaryNode oid _ _ _ _ _ _ => oid
  | ReplicaNode oid _ _ _ _ _ => oid
  end.

Definition isinstance_PrimaryNode (s : NodeServer) : bool :=
  match s with
  | PrimaryNode _ _ _ _ _ _ _ => true
  | ReplicaNode _ _ _ _ _ _ => false
  end.

Definition isinstance_ReplicaNode (s : NodeServer) : bool :=
  match s with
  | PrimaryNode _ _ _ _ _ _ _ => false
  | ReplicaNode _ _ _ _ _ _ => true
  end.

(** The value of a floating-point division of two integers, as numpy
    computes it on the int64 scalars pandas returns: an exact quotient when
    the divisor is not zero, otherwise a non-finite value (no exception). *)
Inductive FloatVal :=
| Finite (q : Q)
| PosInf
| NegInf
| NaN.

Definition true_divide (a b : Z) : FloatVal :=
  if b =? 0 then
    if a =? 0 then NaN else if 0 <? a then PosInf else NegInf
  else Finite (Qred (inject_Z a / inject_Z b)).

Definition float_mul (v : FloatVal) (k : Z) : FloatVal :=
  match v with
  | Finite q => Finite (Qred (q * inject_Z k))
  | PosInf => if k =? 0 then NaN else if 0 <? k then PosInf else NegInf
  | NegInf => if k =? 0 then NaN else if 0 <? k then NegInf else PosInf
  | NaN => NaN
  end.

(** ** The world *)

Inductive LogLevel := ERROR | WARN | INFO.

(** The calls the orchestrator makes on its collaborators, in the order it
    makes them.  [LogAvgThroughput v] is the call
    [LOG.info(f"Average log throughput is {v} per millisecond")]. *)
Inductive Event :=
| Setup (oid : nat)
| Run (oid : nat)
| Teardown (oid : nat)
| DeleteMetricsFile (file_name : string)
| CreateResultsDir
| MoveMetricsFile (input_file_name output_file_name : string)
| ReplicaSync (primary : nat) (replicas : list nat)
| Log (level : LogLevel) (msg : string)
| LogAvgThroughput (v : FloatVal).

Record World := mkWorld {
  METRICS_FILES : list string;
  metrics_dir : gmap string (list MetricsRecord);
  results_dir : gmap string (list MetricsRecord);
  running : gset nat;
  trace : list Event
}.

Definition set_METRICS_FILES (l : list string) (w : World) : World :=
  mkWorld l (metrics_dir w) (results_dir w) (running w) (trace w).

Definition set_metrics_dir (m : gmap string (list MetricsRecord)) (w : World) : World :=
  mkWorld (METRICS_FILES w) m (results_dir w) (running w) (trace w).

Definition set_results_dir (m : gmap string (list MetricsRecord)) (w : World) : World :=
  mkWorld (METRICS_FILES w) (metrics_dir w) m (running w) (trace w).

Definition set_running (r : gset nat) (w : World) : World :=
  mkWorld (METRICS_FILES w) (metrics_dir w) (results_dir w) r (trace w).

Definition emit (e : Event) (w : World) : World :=
  mkWorld (METRICS_FILES w) (metrics_dir w) (results_dir w) (running w) (trace w ++ [e]).

(** A server process appends rows to its csv file, creating it if needed. *)
Definition append_rows (file_name : string) (rows : list MetricsRecord) (w : World) : World :=
  set_metrics_dir (<[file_name := default [] (metrics_dir w !! file_name) ++ rows]> (metrics_dir w)) w.

(** ** The monad: state passing with Python exceptions *)

Inductive Res (A : Type) :=
| Return (a : A)
| Raise (e : PyExc).
Arguments Return {A} a.
Arguments Raise {A} e.

Definition M (A : Type) : Type := World -> Res A * World.

Definition ret {A} (a : A) : M A := fun w => (Return a, w).

Definition raise {A} (e : PyExc) : M A := fun w => (Raise e, w).

Definition bind {A B} (m : M A) (k : A -> M B) : M B :=
  fun w =>
    match m w with
    | (Return a, w') => k a w'
    | (Raise e, w') => (Raise e, w')
    end.

Definition modify (f : World -> World) : M unit := fun w => (Return tt, f w).

Definition gets {A} (f : World -> A) : M A := fun w => (Return (f w), w).

Declare Scope py_scope.
Delimit Scope py_scope with py.
Notation "x <- m ;; k" := (bind m (fun x => k))
  (at level 100, m at next level, right associativity) : py_scope.
Notation "m ;; k" := (bind m (fun _ => k))
  (at level 100, right associativity) : py_scope.
Local Open Scope py_scope.

(** [try: body except C as e: handler e], where [catches] is the
    [isinstance] test of the class [C]. *)
Definition try_except {A} (body : M A) (catches : PyExc -> bool) (handler : PyExc -> M A) : M A :=
  fun w =>
    match body w with
    | (Raise e, w') => if catches e then handler e w' else (Raise e, w')
    | r => r
    end.

(** [for x in xs: body x]. *)
Fixpoint for_each {X} (xs : list X) (body : X -> M unit) : M unit :=
  match xs with
  | [] => ret tt
  | x :: xs' => body x ;; for_each xs' body
  end.

Definition LOG_error (msg : string) : M unit := modify (emit (Log ERROR msg)).
Definition LOG_warn (msg : string) : M unit := modify (emit (Log WARN msg)).

(** ** The collaborators *)

(** Modelled from the spec: the classes of [node_server.py] are not among
    the sources, so what a node's [setup], [run] and [teardown] do is given
    by the environment, one [Behaviour] per node object: whether each call
    raises, whether a failed [setup] leaves the server process alive, and
    the rows the process appends to its metrics file while it starts up and
    while it runs.  Each of the three calls is made at most once on a node
    in one invocation. *)
Record Behaviour := mkBehaviour {
  setup_raises : option PyExc;
  alive_after_failed_setup : bool;
  startup_samples : list MetricsRecord;
  run_raises : option PyExc;
  teardown_raises : option PyExc;
  run_samples : list MetricsRecord
}.

(** What lies outside the program: the nodes' behaviour, the outcome of
    [utils_sql.replica_sync] (which polls the replicas until they have caught
    up with the primary, and is not among the sources), and the clock. *)
Record Env := mkEnv {
  behaviour : nat -> Behaviour;
  replica_sync_raises : option PyExc;
  time_time : Z
}.

(** [l.remove(x)]: the first occurrence of [x] is removed; [None] when
    there is none (Python raises [ValueError]). *)
Fixpoint list_remove (x : string) (l : list string) : option (list string) :=
  match l with
  | [] => None
  | y :: l' => if String.eqb y x then Some l' else cons y <$> list_remove x l'
  end.

(** [df.iloc[i]] on the rows of a data frame, negative positions counting
    from the end. *)
Definition iloc (df : list MetricsRecord) (i : Z) : M MetricsRecord :=
  let n := Z.of_nat (length df) in
  let j := if i <? 0 then n + i else i in
  if j <? 0 then raise (mkExc IndexError "single positional indexer is out-of-bounds")
  else match df !! Z.to_nat j with
       | Some r => ret r
       | None => raise (mkExc IndexError "single positional indexer is out-of-bounds")
       end.

(** [df[METRICS_NUM_RECORDS_COL].sum()]. *)
Definition sum_num_records (df : list MetricsRecord) : Z :=
  foldr Z.add 0 (num_records <$> df).

(** Splits a conjunction into its parts, and no further. *)
Ltac split_all :=
  repeat match goal with
         | |- _ /\ _ => split
         end.

(** ** Sample data

    The inputs at which the statements below are exercised. *)

(** The example of the spec: 95 records in 300 microseconds. *)
Definition spec_example : list MetricsRecord :=
  [mkRecord 0 100 5; mkRecord 100 100 50; mkRecord 300 100 45].



(** A world whose results directory holds one file. *)
Definition results_world (file_name : string) (rs : list MetricsRecord) : World :=
  mkWorld [] ∅ {[file_name := rs]} ∅ [].

(** The world at the start of a process: nothing runs, nothing is written. *)
Definition fresh_world (files : list string) : World :=
  mkWorld files ∅ ∅ ∅ [].

Definition log_serializer_csv : string := "log_serializer_task.csv".
Definition recovery_manager_csv : string := "recovery_manager.csv".
Definition three_metrics_files : list string :=
  [log_serializer_csv; "disk_log_consumer_task.csv"%string; recovery_manager_csv].

(** What is left of that list once the file of a primary is removed. *)
Definition other_metrics_files : list string :=
  ["disk_log_consumer_task.csv"%string; recovery_manager_csv].

(** A server that starts, runs and stops, and samples [spec_example]. *)
Definition healthy : Behaviour :=
  mkBehaviour None false [mkRecord 0 10 1] None None spec_example.


Definition setup_fails : Behaviour :=
  mkBehaviour (Some (mkExc RuntimeError "Unable to start database")) false [] None None [].

Definition run_fails_with_Exception : Behaviour :=
  mkBehaviour None false [] (Some (mkExc Exception "Error in killing PID")) None [].

Definition run_fails : Behaviour :=
  mkBehaviour None false [] (Some (mkExc RuntimeError "benchmark failed")) None [].

(** Every node is [healthy], and the synchronisation succeeds. *)
Definition calm_env : Env := mkEnv (fun _ => healthy) None 1600000000.

(** Every node is [healthy], and the synchronisation times out. *)
Definition timeout_env : Env :=
  mkEnv (fun _ => healthy) (Some (mkExc Exception "replica sync timed out")) 1600000000.


Definition replica_fails_env : Env :=
  mkEnv (fun i => if Nat.eqb i 1 then setup_fails else healthy) None 1600000000.

(** The second node fails in [run]. *)
Definition replica_run_Exception_env : Env :=
  mkEnv (fun i => if Nat.eqb i 1 then run_fails_with_Exception else healthy) None 1600000000.

Definition replica_run_fails_env : Env :=
  mkEnv (fun i => if Nat.eqb i 1 then run_fails else healthy) None 1600000000.

Definition primary0 : NodeServer := PrimaryNode 0 "release" true false "ycsb" 1 4.
Definition primary1 : NodeServer := PrimaryNode 1 "release" true false "ycsb" 1 4.
Definition replica1 : NodeServer := ReplicaNode 1 PRIMARY "release" false "log_messages.txt" 4.

Section LogThroughput.

(** [constants.py] is not among the sources: the two file names are
    parameters, and the initial value of the list [METRICS_FILES] is that
    of the initial [World]. *)
Variables LOG_SERIALIZER_CSV RECOVERY_MANAGER_CSV : string.
Variable env : Env.

(** *** Nodes *)

(** Modelled from the spec: the metrics stream of a node by its role (the
    log-producing stream for a primary, the log-applying stream for a
    replica). *)
Definition metrics_file_of (s : NodeServer) : string :=
  if isinstance_PrimaryNode s then LOG_SERIALIZER_CSV else RECOVERY_MANAGER_CSV.

(** Modelled from the spec: the four methods of [NodeServer], whose code
    is not among the sources.  [setup] starts the server process, which
    writes its startup samples, or raises, leaving the process alive or
    not; [run] starts the workload or raises; [is_running] reports whether
    the process is alive, without side effects; [teardown] stops the
    process, which by then has written its samples, or raises. *)
Definition start_process (s : NodeServer) (w : World) : World :=
  set_running ({[node_id s]} ∪ running w) w.

Definition stop_process (s : NodeServer) (w : World) : World :=
  set_running (running w ∖ {[node_id s]}) w.

Definition setup (s : NodeServer) : M unit :=
  let b := behaviour env (node_id s) in
  modify (emit (Setup (node_id s))) ;;
  match setup_raises b with
  | None =>
      modify (start_process s) ;;
      modify (append_rows (metrics_file_of s) (startup_samples b))
  | Some e =>
      (if alive_after_failed_setup b then modify (start_process s) else ret tt) ;;
      raise e
  end.

Definition run (s : NodeServer) : M unit :=
  modify (emit (Run (node_id s))) ;;
  match run_raises (behaviour env (node_id s)) with
  | None => ret tt
  | Some e => raise e
  end.

Definition is_running (s : NodeServer) : M bool :=
  gets (fun w => bool_decide (node_id s ∈ running w)).

Definition teardown (s : NodeServer) : M unit :=
  let b := behaviour env (node_id s) in
  modify (emit (Teardown (node_id s))) ;;
  match teardown_raises b with
  | None =>
      alive <- is_running s ;;
      (if alive then modify (append_rows (metrics_file_of s) (run_samples b)) else ret tt) ;;
      modify (stop_process s)
  | Some e => raise e
  end.

(** *** [metrics_file_util] and [utils_sql] *)

(** Modelled from the spec: [metrics_file_util.py] is not among the
    sources.  Deleting a file that is not there does nothing; moving one
    that is not there raises. *)
Definition delete_metrics_file (file_name : string) : M unit :=
  modify (emit (DeleteMetricsFile file_name)) ;;
  modify (fun w => set_metrics_dir (delete file_name (metrics_dir w)) w).

Definition delete_metrics_files (file_names : list string) : M unit :=
  for_each file_names delete_metrics_file.

Definition create_results_dir : M unit := modify (emit CreateResultsDir).

Definition move_metrics_file_to_results_dir (input_file_name output_file_name : string) : M unit :=
  modify (emit (MoveMetricsFile input_file_name output_file_name)) ;;
  rows <- gets (fun w => metrics_dir w !! input_file_name) ;;
  match rows with
  | Some rows =>
      modify (fun w => set_results_dir (<[output_file_name := rows]> (results_dir w)) w) ;;
      modify (fun w => set_metrics_dir (delete input_file_name (metrics_dir w)) w)
  | None => raise (mkExc FileNotFoundError input_file_name)
  end.

(** [pd.read_csv(os.path.join(get_results_dir(), file_name))]. *)
Definition read_csv (file_name : string) : M (list MetricsRecord) :=
  rows <- gets (fun w => results_dir w !! file_name) ;;
  match rows with
  | Some rows => ret rows
  | None => raise (mkExc FileNotFoundError file_name)
  end.

(** Modelled from the spec: [utils_sql.replica_sync] is not among the
    sources.  It polls the replicas, and returns or raises (a timeout) as
    the environment says. *)
Definition replica_sync (primary : nat) (replicas : list nat) : M unit :=
  modify (emit (ReplicaSync primary replicas)) ;;
  match replica_sync_raises env with
  | None => ret tt
  | Some e => raise e
  end.

(** *** [log_throughput.py] *)

Definition aggregate_log_throughput (file_name : string) : M unit :=
  df <- read_csv file_name ;;
  (* remove first row *)
  let df := drop 1 df in
  if (length df <=? 1)%nat then
    LOG_error "Not enough data to calculate log throughput"
  else
    (* Microseconds *)
    last <- iloc df (-1) ;;
    let end_time := start_time last + elapsed_time last in
    first <- iloc df 0 ;;
    let start_time := start_time first in
    let total_time := end_time - start_time in
    let total_records := sum_num_records df in
    (* Convert to milliseconds *)
    let avg_throughput := float_mul (true_divide total_records total_time) 1000 in
    modify (emit (LogAvgThroughput avg_throughput)).

Definition sync_servers (servers : list NodeServer) : M unit :=
  if (length servers <? 2)%nat then ret tt
  else
    let primary := node_id <$> filter (fun s => isinstance_PrimaryNode s = true) servers in
    (* We should only ever have a single primary *)
    if (1 <? length primary)%nat then
      raise (mkExc RuntimeError "Should never have multiple primaries running at once")
    else
      match primary with
      | [] => ret tt
      | primary :: _ =>
          let replicas := node_id <$> filter (fun s => isinstance_ReplicaNode s = true) servers in
          replica_sync primary replicas
      end.

(** The identity of a node is its position in the list: the nodes of one
    invocation are distinct objects. *)
Definition get_servers (test_type : TestType) (build_type : string)
    (replication_enabled async_commit : bool) (oltp_benchmark : string) (scale_factor : Z)
    (log_messages_file : string) (connection_threads : Z) : list NodeServer :=
  let servers := [] in
  if String.eqb (value test_type) (value PRIMARY) then
    let servers := servers ++ [PrimaryNode (length servers) build_type replication_enabled
                                 async_commit oltp_benchmark scale_factor connection_threads] in
    if replication_enabled then
      servers ++ [ReplicaNode (length servers) test_type build_type async_commit
                    log_messages_file connection_threads]
    else servers
  else if String.eqb (value test_type) (value REPLICA) then
    servers ++ [ReplicaNode (length servers) test_type build_type async_commit
                  log_messages_file connection_threads]
  else servers.

(** Whether the body of [log_throughput] goes on after its first [try]
    statement, or has executed the [return] of the handler. *)
Inductive Flow := Continue | Returned.

(** Lines 58 to 65: the body of the first [try] statement. *)
Definition start_servers (servers : list NodeServer) (metrics_file : string) : M Flow :=
  for_each servers setup ;;
  (* We don't care about log records generated at startup *)
  delete_metrics_file metrics_file ;;
  for_each servers run ;;
  ret Continue.

(** Lines 69 to 71: the loop of its handler. *)
Definition teardown_running (servers : list NodeServer) : M unit :=
  for_each servers (fun server =>
    alive <- is_running server ;;
    if alive then teardown server else ret tt).

(** Lines 57 to 87: the lifecycle of the servers of one invocation.
    [other_metrics_files] is the list object [METRICS_FILES] itself, so
    line 84 reads the global list. *)
Definition run_servers (servers : list NodeServer) (metrics_file output_file : string) : M unit :=
  flow <- try_except
            (start_servers servers metrics_file)
            is_RuntimeError
            (fun e =>
               LOG_error (exc_msg e) ;;
               teardown_running servers ;;
               ret Returned) ;;
  match flow with
  | Returned => ret tt
  | Continue =>
      try_except (sync_servers servers) is_Exception
        (fun e => LOG_warn ("Syncing databases failed: " +:+ exc_msg e)) ;;
      for_each servers teardown ;;
      create_results_dir ;;
      other_metrics_files <- gets METRICS_FILES ;;
      delete_metrics_files other_metrics_files ;;
      move_metrics_file_to_results_dir metrics_file output_file ;;
      aggregate_log_throughput output_file
  end.

Definition log_throughput (test_type : TestType) (build_type : string)
    (replication_enabled async_commit : bool) (oltp_benchmark : string) (scale_factor : Z)
    (log_messages_file : string) (connection_threads : Z) (output_file : option string) : M unit :=
  let output_file :=
    match output_file with
    | None => value test_type +:+ "-log-throughput-" +:+ pretty (time_time env) +:+ ".csv"
    | Some output_file => output_file
    end in
  let metrics_file :=
    if String.eqb (value test_type) (value PRIMARY) then LOG_SERIALIZER_CSV
    else RECOVERY_MANAGER_CSV in
  (* other_metrics_files = METRICS_FILES; other_metrics_files.remove(metrics_file) *)
  files <- gets METRICS_FILES ;;
  match list_remove metrics_file files with
  | None => raise (mkExc ValueError "list.remove(x): x not in list")
  | Some files' =>
      modify (set_METRICS_FILES files') ;;
      let servers := get_servers test_type build_type replication_enabled async_commit
                       oltp_benchmark scale_factor log_messages_file connection_threads in
      run_servers servers metrics_file output_file
  end.


(** ** Definitions used by the statements *)

Definition ids (servers : list NodeServer) : list nat := node_id <$> servers.

Definition setup_ok (s : NodeServer) : Prop :=
  setup_raises (behaviour env (node_id s)) = None.

Definition run_ok (s : NodeServer) : Prop :=
  run_raises (behaviour env (node_id s)) = None.

Definition teardown_ok (s : NodeServer) : Prop :=
  teardown_raises (behaviour env (node_id s)) = None.

(** The nodes of [l] whose [teardown] a loop over [l] calls: all of them up
    to and including the first whose [teardown] raises. *)
Fixpoint attempted (l : list NodeServer) : list NodeServer :=
  match l with
  | [] => []
  | s :: l' =>
      s :: match teardown_raises (behaviour env (node_id s)) with
           | None => attempted l'
           | Some _ => []
           end
  end.

(** The content of the file [file_name] once the nodes of [l], all alive,
    have been torn down: their samples, appended in that order to what the
    file held ([None]: no such file). *)
Definition written (file_name : string) (l : list NodeServer)
    (init : option (list MetricsRecord)) : option (list MetricsRecord) :=
  foldl (fun acc s =>
           if decide (metrics_file_of s = file_name)
           then Some (default [] acc ++ run_samples (behaviour env (node_id s)))
           else acc) init l.

(** The servers of [l] whose process is alive in [w]: those for which
    [is_running()] answers true. *)
Definition started (w : World) (l : list NodeServer) : list NodeServer :=
  filter (fun s => node_id s ∈ running w) l.

(** The effect on the world of the calls that do not raise. *)
Definition setup_world (s : NodeServer) (w : World) : World :=
  append_rows (metrics_file_of s) (startup_samples (behaviour env (node_id s)))
    (start_process s (emit (Setup (node_id s)) w)).

Definition failed_setup_world (s : NodeServer) (w : World) : World :=
  if alive_after_failed_setup (behaviour env (node_id s))
  then start_process s (emit (Setup (node_id s)) w)
  else emit (Setup (node_id s)) w.

Definition run_world (s : NodeServer) (w : World) : World :=
  emit (Run (node_id s)) w.

Definition teardown_world (s : NodeServer) (w : World) : World :=
  stop_process s
    (if bool_decide (node_id s ∈ running w)
     then append_rows (metrics_file_of s) (run_samples (behaviour env (node_id s)))
            (emit (Teardown (node_id s)) w)
     else emit (Teardown (node_id s)) w).

Definition delete_world (file_name : string) (w : World) : World :=
  set_metrics_dir (delete file_name (metrics_dir (emit (DeleteMetricsFile file_name) w)))
    (emit (DeleteMetricsFile file_name) w).

(** The world after the calls [evs], none of which changes anything else. *)
Definition emit_all (evs : list Event) (w : World) : World :=
  foldl (fun w ev => emit ev w) w evs.

(** The calls a trace [tr'] adds to the trace [tr] it extends. *)
Definition new_events (tr tr' : list Event) : list Event := drop (length tr) tr'.

(** The computation [m] leaves the field [field] of the world as it finds
    it, whether it returns or raises. *)
Definition keeps {A B} (field : World -> B) (m : M A) : Prop :=
  forall w, field (snd (m w)) = field w.

(** Line 50: the metrics file of a test type. *)
Definition metrics_file_for (test_type : TestType) : string :=
  if String.eqb (value test_type) (value PRIMARY) then LOG_SERIALIZER_CSV
  else RECOVERY_MANAGER_CSV.

(** The order in which a trace sets nodes up, and tears them down. *)
Definition setup_order (evs : list Event) : list nat :=
  omap (fun ev => match ev with Setup i => Some i | _ => None end) evs.

Definition teardown_order (evs : list Event) : list nat :=
  omap (fun ev => match ev with Teardown i => Some i | _ => None end) evs.

(** The throughput in the spec's words: the sum of [num_records] over the
    records after the first, divided by the time from the start of the
    second record to the end of the last, times 1000. *)
Definition spec_total_records (rs : list MetricsRecord) : Z :=
  sum_num_records (drop 1 rs).

Definition spec_total_time (rs : list MetricsRecord) : Z :=
  let zero := mkRecord 0 0 0 in
  let second := default zero (rs !! 1%nat) in
  let final := default zero (last rs) in
  start_time final + elapsed_time final - start_time second.

Definition spec_throughput (rs : list MetricsRecord) : FloatVal :=
  float_mul (true_divide (spec_total_records rs) (spec_total_time rs)) 1000.


(** The event the aggregation ends with on a file of rows [rs]. *)
Definition aggregate_event (rs : list MetricsRecord) : Event :=
  if (length rs <? 3)%nat then Log ERROR "Not enough data to calculate log throughput"
  else LogAvgThroughput (spec_throughput rs).


(** ** Definitions used by the further statements *)

(** Lines 82 to 87: the end of a run, after the teardown of the servers. *)
Definition finish_servers (metrics_file output_file : string) : M unit :=
  create_results_dir ;;
  other_metrics_files <- gets METRICS_FILES ;;
  delete_metrics_files other_metrics_files ;;
  move_metrics_file_to_results_dir metrics_file output_file ;;
  aggregate_log_throughput output_file.

(** The world after lines 82 to 84: the results directory is there and the
    files of the global list are deleted. *)
Definition cleared_world (w : World) : World :=
  foldl (fun w f => delete_world f w) (emit CreateResultsDir w) (METRICS_FILES w).

(** The world after a metrics file of rows [rows] has been moved. *)
Definition moved_world (metrics_file output_file : string) (rows : list MetricsRecord)
    (w : World) : World :=
  set_metrics_dir (delete metrics_file (metrics_dir w))
    (set_results_dir (<[output_file := rows]> (results_dir w))
       (emit (MoveMetricsFile metrics_file output_file) w)).

(** The order in which a trace runs nodes. *)
Definition run_order (evs : list Event) : list nat :=
  omap (fun ev => match ev with Run i => Some i | _ => None end) evs.

(** The calls of the synchronisation and of the loggers. *)
Definition is_sync_event (ev : Event) : Prop :=
  match ev with
  | ReplicaSync _ _ | Log _ _ => True
  | _ => False
  end.

(** The calls of the end of a run. *)
Definition is_result_event (ev : Event) : Prop :=
  match ev with
  | CreateResultsDir | DeleteMetricsFile _ | MoveMetricsFile _ _ | Log _ _
  | LogAvgThroughput _ => True
  | _ => False
  end.

(** The calls of one invocation, in blocks: the setups of the servers [S],
    the deletion of the metrics file (when [del]), the runs of the servers
    [R], the calls [mid] of the synchronisation and the loggers, the
    teardowns of the servers [T], and the calls [fin] of the end of the
    run. *)
Definition lifecycle (servers : list NodeServer) (metrics_file : string)
    (evs : list Event) (S R T : list NodeServer) (del : bool) (mid fin : list Event) : Prop :=
  evs = (Setup <$> ids S) ++ (if del then [DeleteMetricsFile metrics_file] else [])
          ++ (Run <$> ids R) ++ mid ++ (Teardown <$> ids T) ++ fin
  /\ S `prefix_of` servers /\ R `prefix_of` servers /\ T `sublist_of` servers
  /\ (del = true -> S = servers) /\ (R <> [] -> del = true)
  /\ Forall is_sync_event mid /\ Forall is_result_event fin
  /\ (fin <> [] -> T = servers /\ R = servers)
  /\ (forall p replicas, ReplicaSync p replicas ∈ mid -> R = servers).

(** Line 48: the name of the output file when none is given. *)
Definition default_output_file (test_type : TestType) (now : Z) : string :=
  value test_type +:+ "-log-throughput-" +:+ pretty now +:+ ".csv".

(** The calls that touch the results directory or report a throughput. *)
Definition is_report_event (ev : Event) : Prop :=
  match ev with
  | CreateResultsDir | MoveMetricsFile _ _ | LogAvgThroughput _ => True
  | _ => False
  end.

(** ** The monad *)

Lemma bind_Return {A B} (m : M A) (k : A -> M B) w a w' :
  m w = (Return a, w') -> bind m k w = k a w'.
Proof. intros H. unfold bind. now rewrite H. Qed.

Lemma bind_Raise {A B} (m : M A) (k : A -> M B) w e w' :
  m w = (Raise e, w') -> bind m k w = (Raise e, w').
Proof. intros H. unfold bind. now rewrite H. Qed.

Lemma for_each_app {X} (l1 l2 : list X) (body : X -> M unit) w :
  for_each (l1 ++ l2) body w = (for_each l1 body ;; for_each l2 body) w.
Proof.
  revert w. induction l1 as [|x l1 IH]; intros w; simpl.
  - reflexivity.
  - unfold bind in *. destruct (body x w) as [[[]|e] w1]; [|reflexivity].
    apply IH.
Qed.

(** A loop whose body never raises folds the body's effect over the list. *)
Lemma for_each_ok {X} (step : X -> World -> World) (body : X -> M unit) l :
  (forall x, x ∈ l -> forall w, body x w = (Return tt, step x w)) ->
  forall w, for_each l body w = (Return tt, foldl (fun w x => step x w) w l).
Proof.
  induction l as [|x l IH]; intros Hbody w; simpl.
  - reflexivity.
  - rewrite (bind_Return _ _ _ tt (step x w)) by (apply Hbody; left).
    apply IH. intros y Hy. apply Hbody. now right.
Qed.

(** A loop stops at the first element whose body raises. *)
Lemma for_each_fail {X} (step : X -> World -> World) (body : X -> M unit) pre x post e :
  (forall y, y ∈ pre -> forall w, body y w = (Return tt, step y w)) ->
  forall w w',
  body x (foldl (fun w y => step y w) w pre) = (Raise e, w') ->
  for_each (pre ++ x :: post) body w = (Raise e, w').
Proof.
  intros Hpre w w' Hx. rewrite for_each_app.
  rewrite (bind_Return _ _ _ tt (foldl (fun w y => step y w) w pre))
    by now apply for_each_ok.
  simpl. now apply bind_Raise.
Qed.

(** ** The aggregation *)

Lemma iloc_last df r w :
  last df = Some r -> iloc df (-1) w = (Return r, w).
Proof.
  intros H. unfold iloc. rewrite last_lookup in H.
  assert (0 < length df)%nat by (destruct df; simpl in *; [discriminate|lia]).
  replace (-1 <? 0) with true by reflexivity.
  destruct (Z.ltb_spec (Z.of_nat (length df) + -1) 0) as [|_]; [lia|].
  replace (Z.to_nat (Z.of_nat (length df) + -1)) with (pred (length df)) by lia.
  now rewrite H.
Qed.

Lemma iloc_first df r w :
  head df = Some r -> iloc df 0 w = (Return r, w).
Proof. intros H. destruct df; [discriminate|]. now inversion H. Qed.

Lemma aggregate_too_short file_name rs w :
  results_dir w !! file_name = Some rs ->
  (length rs < 3)%nat ->
  aggregate_log_throughput file_name w
  = (Return tt, emit (Log ERROR "Not enough data to calculate log throughput") w).
Proof.
  intros Hfile Hlen. unfold aggregate_log_throughput, read_csv, bind, gets.
  rewrite Hfile. simpl.
  destruct (Nat.leb_spec (length (drop 1 rs)) 1) as [_|Hgt]; [reflexivity|].
  rewrite length_drop in Hgt. lia.
Qed.

Lemma aggregate_enough file_name rs w :
  results_dir w !! file_name = Some rs ->
  (3 <= length rs)%nat ->
  aggregate_log_throughput file_name w
  = (Return tt, emit (LogAvgThroughput (spec_throughput rs)) w).
Proof.
  intros Hfile Hlen. unfold aggregate_log_throughput.
  rewrite (bind_Return _ _ _ rs w)
    by (unfold read_csv, bind, gets; now rewrite Hfile).
  destruct rs as [|r0 [|r1 df]]; simpl in Hlen; try lia.
  change (drop 1 (r0 :: r1 :: df)) with (r1 :: df).
  destruct (Nat.leb_spec (length (r1 :: df)) 1) as [Hle|_]; [simpl in Hle; lia|].
  destruct (last (r1 :: df)) as [rl|] eqn:Hlast.
  2:{ rewrite last_cons in Hlast. destruct (last df); discriminate. }
  rewrite (bind_Return (iloc (r1 :: df) (-1)) _ _ rl w) by now apply iloc_last.
  rewrite (bind_Return (iloc (r1 :: df) 0) _ _ r1 w) by reflexivity.
  unfold modify, spec_throughput, spec_total_records, spec_total_time.
  change (drop 1 (r0 :: r1 :: df)) with (r1 :: df).
  change ((r0 :: r1 :: df) !! 1%nat) with (Some r1).
  replace (last (r0 :: r1 :: df)) with (Some rl)
    by (rewrite (last_cons r0), Hlast; reflexivity).
  reflexivity.
Qed.

Lemma aggregate_run file_name rs w :
  results_dir w !! file_name = Some rs ->
  aggregate_log_throughput file_name w = (Return tt, emit (aggregate_event rs) w).
Proof.
  intros Hfile. unfold aggregate_event.
  destruct (Nat.ltb_spec (length rs) 3).
  - eapply aggregate_too_short; eassumption.
  - now apply aggregate_enough.
Qed.

(** ** The synchronisation step *)

Lemma sync_servers_multiple_primaries servers w :
  (2 <= length (filter (fun s => isinstance_PrimaryNode s = true) servers))%nat ->
  sync_servers servers w
  = (Raise (mkExc RuntimeError "Should never have multiple primaries running at once"), w).
Proof.
  intros Hp. unfold sync_servers.
  pose proof (length_filter (fun s => isinstance_PrimaryNode s = true) servers) as Hle.
  destruct (Nat.ltb_spec (length servers) 2) as [Hlt|_]; [lia|].
  rewrite length_fmap.
  destruct (Nat.ltb_spec 1 (length (filter (fun s => isinstance_PrimaryNode s = true) servers)))
    as [_|Hge]; [reflexivity|lia].
Qed.

Lemma no_replica_all_primaries servers :
  filter (fun s => isinstance_ReplicaNode s = true) servers = [] ->
  filter (fun s => isinstance_PrimaryNode s = true) servers = servers.
Proof.
  induction servers as [|s l IH]; intros Hr; [reflexivity|].
  destruct s; simpl in *.
  - rewrite filter_cons_True by reflexivity.
    rewrite filter_cons_False in Hr by discriminate. now rewrite IH.
  - rewrite filter_cons_True in Hr by reflexivity. discriminate.
Qed.

Lemma sync_servers_single servers p w :
  (2 <= length servers)%nat ->
  node_id <$> filter (fun s => isinstance_PrimaryNode s = true) servers = [p] ->
  sync_servers servers w
  = replica_sync p (node_id <$> filter (fun s => isinstance_ReplicaNode s = true) servers) w.
Proof.
  intros Hlen Hp. unfold sync_servers.
  destruct (Nat.ltb_spec (length servers) 2) as [Hlt|_]; [lia|].
  rewrite Hp. reflexivity.
Qed.

(** ** The calls on a node *)

Lemma setup_Return s w :
  setup_ok s -> setup s w = (Return tt, setup_world s w).
Proof. intros H. unfold setup, setup_ok in *. now rewrite H. Qed.

Lemma setup_Raise s e w :
  setup_raises (behaviour env (node_id s)) = Some e ->
  setup s w = (Raise e, failed_setup_world s w).
Proof.
  intros H. unfold setup, failed_setup_world. rewrite H.
  now destruct (alive_after_failed_setup _).
Qed.

Lemma run_Return s w : run_ok s -> run s w = (Return tt, run_world s w).
Proof. intros H. unfold run, run_ok in *. now rewrite H. Qed.

Lemma run_Raise s e w :
  run_raises (behaviour env (node_id s)) = Some e ->
  run s w = (Raise e, run_world s w).
Proof. intros H. unfold run. now rewrite H. Qed.

Lemma teardown_Return s w :
  teardown_ok s -> teardown s w = (Return tt, teardown_world s w).
Proof.
  intros H. unfold teardown, teardown_ok, teardown_world in *. rewrite H.
  unfold bind, modify, is_running, gets. simpl.
  now destruct (bool_decide (node_id s ∈ running w)).
Qed.

Lemma teardown_Raise s e w :
  teardown_raises (behaviour env (node_id s)) = Some e ->
  teardown s w = (Raise e, emit (Teardown (node_id s)) w).
Proof. intros H. unfold teardown. now rewrite H. Qed.

(** ** Folding the effect of a loop *)

Lemma foldl_trace {X} (step : X -> World -> World) (ev : X -> Event) l :
  (forall x w, trace (step x w) = trace w ++ [ev x]) ->
  forall w, trace (foldl (fun w x => step x w) w l) = trace w ++ (ev <$> l).
Proof.
  intros Hstep. induction l as [|x l IH]; intros w; simpl.
  - now rewrite app_nil_r.
  - rewrite IH, Hstep, <- app_assoc. reflexivity.
Qed.

Lemma foldl_field {X A} (field : World -> A) (step : X -> World -> World) l :
  (forall x w, field (step x w) = field w) ->
  forall w, field (foldl (fun w x => step x w) w l) = field w.
Proof.
  intros Hstep. induction l as [|x l IH]; intros w; simpl; [reflexivity|].
  now rewrite IH.
Qed.

Lemma setups_trace l w :
  trace (foldl (fun w s => setup_world s w) w l) = trace w ++ (Setup <$> ids l).
Proof.
  unfold ids. rewrite <- list_fmap_compose.
  now apply (foldl_trace setup_world (fun s => Setup (node_id s))).
Qed.

Lemma setups_running l w :
  running (foldl (fun w s => setup_world s w) w l) = list_to_set (ids l) ∪ running w.
Proof.
  revert w. induction l as [|s l IH]; intros w; simpl.
  - set_solver.
  - rewrite IH. simpl. set_solver.
Qed.

Lemma runs_trace l w :
  trace (foldl (fun w s => run_world s w) w l) = trace w ++ (Run <$> ids l).
Proof.
  unfold ids. rewrite <- list_fmap_compose.
  now apply (foldl_trace run_world (fun s => Run (node_id s))).
Qed.

Lemma teardown_world_trace s w :
  trace (teardown_world s w) = trace w ++ [Teardown (node_id s)].
Proof. unfold teardown_world. now destruct (bool_decide _). Qed.

Lemma teardown_world_running s w :
  running (teardown_world s w) = running w ∖ {[node_id s]}.
Proof. unfold teardown_world. now destruct (bool_decide _). Qed.

Lemma teardown_world_results_dir s w :
  results_dir (teardown_world s w) = results_dir w.
Proof. unfold teardown_world. now destruct (bool_decide _). Qed.

Lemma teardown_world_METRICS_FILES s w :
  METRICS_FILES (teardown_world s w) = METRICS_FILES w.
Proof. unfold teardown_world. now destruct (bool_decide _). Qed.

Lemma teardowns_trace l w :
  trace (foldl (fun w s => teardown_world s w) w l) = trace w ++ (Teardown <$> ids l).
Proof.
  unfold ids. rewrite <- list_fmap_compose.
  apply (foldl_trace teardown_world (fun s => Teardown (node_id s))).
  apply teardown_world_trace.
Qed.

Lemma teardowns_running l w :
  running (foldl (fun w s => teardown_world s w) w l) = running w ∖ list_to_set (ids l).
Proof.
  revert w. induction l as [|s l IH]; intros w; simpl.
  - set_solver.
  - rewrite IH, teardown_world_running. set_solver.
Qed.

Lemma deletes_trace files w :
  trace (foldl (fun w f => delete_world f w) w files)
  = trace w ++ (DeleteMetricsFile <$> files).
Proof. now apply (foldl_trace delete_world DeleteMetricsFile). Qed.

Lemma deletes_keep file_name files w :
  file_name ∉ files ->
  metrics_dir (foldl (fun w f => delete_world f w) w files) !! file_name
  = metrics_dir w !! file_name.
Proof.
  revert w. induction files as [|f files IH]; intros w Hnot; simpl; [reflexivity|].
  rewrite IH by set_solver. simpl.
  apply lookup_delete_ne. set_solver.
Qed.

Lemma teardowns_written file_name l :
  NoDup (ids l) ->
  forall w, (forall s, s ∈ l -> node_id s ∈ running w) ->
  metrics_dir (foldl (fun w s => teardown_world s w) w l) !! file_name
  = written file_name l (metrics_dir w !! file_name).
Proof.
  unfold written. induction l as [|s l IH]; intros Hnd w Hrun; simpl; [reflexivity|].
  simpl in Hnd. apply NoDup_cons in Hnd as [Hs Hnd].
  rewrite IH; [|assumption|].
  - f_equal. unfold teardown_world.
    rewrite bool_decide_eq_true_2 by (apply Hrun; left). simpl.
    destruct (decide (metrics_file_of s = file_name)) as [<-|Hne].
    + now rewrite lookup_insert_eq.
    + now rewrite lookup_insert_ne.
  - intros s' Hs'. rewrite teardown_world_running.
    assert (node_id s' <> node_id s).
    { intros Heq. apply Hs. rewrite <- Heq. now apply list_elem_of_fmap_2. }
    assert (node_id s' ∈ running w) by (apply Hrun; now right).
    set_solver.
Qed.

(** ** [try] statements *)

Lemma try_except_Return {A} (body : M A) catches handler w a w' :
  body w = (Return a, w') -> try_except body catches handler w = (Return a, w').
Proof. intros H. unfold try_except. now rewrite H. Qed.

Lemma try_except_caught {A} (body : M A) catches handler w e w' :
  body w = (Raise e, w') -> catches e = true ->
  try_except body catches handler w = handler e w'.
Proof. intros H Hc. unfold try_except. now rewrite H, Hc. Qed.

Lemma try_except_uncaught {A} (body : M A) catches handler w e w' :
  body w = (Raise e, w') -> catches e = false ->
  try_except body catches handler w = (Raise e, w').
Proof. intros H Hc. unfold try_except. now rewrite H, Hc. Qed.

(** ** Lines 58 to 65: setting the servers up and running them *)

Lemma start_servers_ok servers metrics_file w :
  Forall setup_ok servers -> Forall run_ok servers ->
  start_servers servers metrics_file w
  = (Return Continue,
     foldl (fun w s => run_world s w)
       (delete_world metrics_file (foldl (fun w s => setup_world s w) w servers)) servers).
Proof.
  intros Hs Hr. unfold start_servers.
  rewrite (bind_Return _ _ _ tt (foldl (fun w s => setup_world s w) w servers)).
  2:{ apply for_each_ok. intros s Hin w'. apply setup_Return.
      rewrite Forall_forall in Hs. now apply Hs. }
  rewrite (bind_Return _ _ _ tt
             (delete_world metrics_file (foldl (fun w s => setup_world s w) w servers)))
    by reflexivity.
  rewrite (bind_Return _ _ _ tt
             (foldl (fun w s => run_world s w)
                (delete_world metrics_file (foldl (fun w s => setup_world s w) w servers))
                servers)).
  2:{ apply for_each_ok. intros s Hin w'. apply run_Return.
      rewrite Forall_forall in Hr. now apply Hr. }
  reflexivity.
Qed.

Lemma start_servers_setup_fails pre s post e metrics_file w :
  Forall setup_ok pre ->
  setup_raises (behaviour env (node_id s)) = Some e ->
  start_servers (pre ++ s :: post) metrics_file w
  = (Raise e, failed_setup_world s (foldl (fun w s => setup_world s w) w pre)).
Proof.
  intros Hpre He. unfold start_servers. apply bind_Raise.
  apply (for_each_fail setup_world).
  - intros y Hy w'. apply setup_Return. rewrite Forall_forall in Hpre. now apply Hpre.
  - now apply setup_Raise.
Qed.

Lemma start_servers_run_fails pre s post e metrics_file w :
  Forall setup_ok (pre ++ s :: post) -> Forall run_ok pre ->
  run_raises (behaviour env (node_id s)) = Some e ->
  start_servers (pre ++ s :: post) metrics_file w
  = (Raise e,
     run_world s
       (foldl (fun w s => run_world s w)
          (delete_world metrics_file
             (foldl (fun w s => setup_world s w) w (pre ++ s :: post))) pre)).
Proof.
  intros Hs Hpre He. unfold start_servers.
  rewrite (bind_Return _ _ _ tt (foldl (fun w s => setup_world s w) w (pre ++ s :: post))).
  2:{ apply for_each_ok. intros y Hin w'. apply setup_Return.
      rewrite Forall_forall in Hs. now apply Hs. }
  rewrite (bind_Return _ _ _ tt
             (delete_world metrics_file
                (foldl (fun w s => setup_world s w) w (pre ++ s :: post))))
    by reflexivity.
  apply bind_Raise. apply (for_each_fail run_world).
  - intros y Hy w'. apply run_Return. rewrite Forall_forall in Hpre. now apply Hpre.
  - now apply run_Raise.
Qed.

(** ** Lines 69 to 71: the cleanup loop of the handler *)

Lemma attempted_ok l : Forall teardown_ok l -> attempted l = l.
Proof.
  induction 1 as [|s l Hs _ IH]; simpl; [reflexivity|].
  unfold teardown_ok in Hs. now rewrite Hs, IH.
Qed.


Lemma attempted_prefix l : attempted l `prefix_of` l.
Proof.
  induction l as [|s l IH]; simpl; [reflexivity|].
  destruct (teardown_raises _).
  - exists l. reflexivity.
  - now apply prefix_cons.
Qed.

Lemma started_stop w s l :
  node_id s ∉ ids l -> started (teardown_world s w) l = started w l.
Proof.
  intros Hs. unfold started. induction l as [|x l IH]; [reflexivity|].
  simpl in Hs. apply not_elem_of_cons in Hs as [Hne Hs].
  rewrite !filter_cons, IH by assumption.
  rewrite teardown_world_running.
  destruct (decide (node_id x ∈ running w ∖ {[node_id s]})) as [Hin|Hnin];
    destruct (decide (node_id x ∈ running w)) as [Hin'|Hnin'];
    try reflexivity; set_solver.
Qed.

Lemma teardown_running_spec l :
  NoDup (ids l) ->
  forall w, exists res w',
    teardown_running l w = (res, w')
    /\ trace w' = trace w ++ (Teardown <$> ids (attempted (started w l)))
    /\ results_dir w' = results_dir w
    /\ METRICS_FILES w' = METRICS_FILES w
    /\ (Forall teardown_ok (started w l) ->
        res = Return tt /\ running w' = running w ∖ list_to_set (ids l))
    /\ (res = Return tt \/
        exists s e', s ∈ attempted (started w l)
                     /\ teardown_raises (behaviour env (node_id s)) = Some e'
                     /\ res = Raise e').
Proof.
  unfold teardown_running.
  induction l as [|s l IH]; intros Hnd w.
  - exists (Return tt), w. simpl. rewrite app_nil_r.
    split_all; try reflexivity; [intros _; split; [reflexivity|set_solver] | now left].
  - simpl in Hnd. apply NoDup_cons in Hnd as [Hs Hnd]. simpl.
    destruct (decide (node_id s ∈ running w)) as [Hin|Hnin].
    + (* the node is alive: teardown is called *)
      assert (Hst : started w (s :: l) = s :: started w l)
        by (unfold started; now rewrite filter_cons_True).
      rewrite Hst. simpl.
      destruct (teardown_raises (behaviour env (node_id s))) as [e'|] eqn:Htd.
      * exists (Raise e'), (emit (Teardown (node_id s)) w). split_all; try reflexivity.
        -- apply bind_Raise. unfold bind, is_running, gets.
           rewrite bool_decide_eq_true_2 by assumption. now apply teardown_Raise.
        -- intros Hall. apply Forall_cons in Hall as [Hok _].
           unfold teardown_ok in Hok. congruence.
        -- right. exists s, e'. split_all; [left | assumption | reflexivity].
      * destruct (IH Hnd (teardown_world s w))
          as (res & w' & Hrun & Htr & Hres & Hmf & Hall & Hres').
        rewrite started_stop in Htr, Hall, Hres' by assumption.
        exists res, w'. split_all.
        -- rewrite (bind_Return _ _ w tt (teardown_world s w)); [exact Hrun|].
           unfold bind, is_running, gets.
           rewrite bool_decide_eq_true_2 by assumption. now apply teardown_Return.
        -- rewrite Htr, teardown_world_trace, <- app_assoc. reflexivity.
        -- now rewrite Hres, teardown_world_results_dir.
        -- now rewrite Hmf, teardown_world_METRICS_FILES.
        -- intros Hok. apply Forall_cons in Hok as [_ Hok].
           destruct (Hall Hok) as [-> ->]. split; [reflexivity|].
           rewrite teardown_world_running. set_solver.
        -- destruct Hres' as [->|(s' & e' & Hs' & He' & ->)]; [now left|].
           right. exists s', e'. split_all; [now right | assumption | reflexivity].
    + (* the node is not alive: it is skipped *)
      assert (Hst : started w (s :: l) = started w l)
        by (unfold started; now rewrite filter_cons_False).
      rewrite Hst.
      destruct (IH Hnd w) as (res & w' & Hrun & Htr & Hres & Hmf & Hall & Hres').
      exists res, w'. split_all; try assumption.
      * rewrite (bind_Return _ _ w tt w); [exact Hrun|].
        unfold bind, is_running, gets. now rewrite bool_decide_eq_false_2.
      * intros Hok. destruct (Hall Hok) as [-> ->]. split; [reflexivity|]. set_solver.
Qed.

(** ** Lines 57 to 72: the first [try] statement *)

Lemma run_servers_uncaught servers metrics_file output_file w e w1 :
  start_servers servers metrics_file w = (Raise e, w1) ->
  is_RuntimeError e = false ->
  run_servers servers metrics_file output_file w = (Raise e, w1).
Proof.
  intros Hstart He. unfold run_servers. apply bind_Raise.
  now apply try_except_uncaught.
Qed.

Lemma run_servers_abort servers metrics_file output_file w e w1 :
  NoDup (ids servers) ->
  start_servers servers metrics_file w = (Raise e, w1) ->
  is_RuntimeError e = true ->
  exists res w',
    run_servers servers metrics_file output_file w = (res, w')
    /\ trace w' = trace w1 ++ Log ERROR (exc_msg e)
                            :: (Teardown <$> ids (attempted (started w1 servers)))
    /\ results_dir w' = results_dir w1
    /\ METRICS_FILES w' = METRICS_FILES w1
    /\ (Forall teardown_ok (started w1 servers) ->
        res = Return tt /\ running w' = running w1 ∖ list_to_set (ids servers))
    /\ (res = Return tt \/
        exists s e', s ∈ attempted (started w1 servers)
                     /\ teardown_raises (behaviour env (node_id s)) = Some e'
                     /\ res = Raise e').
Proof.
  intros Hnd Hstart He.
  destruct (teardown_running_spec servers Hnd (emit (Log ERROR (exc_msg e)) w1))
    as (res & w' & Hrun & Htr & Hres & Hmf & Hall & Hres').
  change (started (emit (Log ERROR (exc_msg e)) w1) servers)
    with (started w1 servers) in *.
  simpl in Htr, Hres, Hmf, Hall. rewrite <- app_assoc in Htr.
  exists res, w'. split_all; try assumption.
  unfold run_servers.
  unfold bind at 1. rewrite (try_except_caught _ _ _ _ e w1) by assumption.
  unfold LOG_error. unfold bind at 1. unfold modify at 1. unfold bind at 1.
  rewrite Hrun.
  destruct Hres' as [->|(s & e' & _ & _ & ->)]; reflexivity.
Qed.

(** ** Lines 74 to 77: the guarded synchronisation *)


Lemma sync_failure_is_warning servers p e w :
  (2 <= length servers)%nat ->
  node_id <$> filter (fun s => isinstance_PrimaryNode s = true) servers = [p] ->
  replica_sync_raises env = Some e ->
  is_Exception e = true ->
  try_except (sync_servers servers) is_Exception
    (fun e => LOG_warn ("Syncing databases failed: " +:+ exc_msg e)) w
  = (Return tt,
     emit (Log WARN ("Syncing databases failed: " +:+ exc_msg e))
       (emit (ReplicaSync p
                (node_id <$> filter (fun s => isinstance_ReplicaNode s = true) servers)) w)).
Proof.
  intros Hlen Hp Hsync He.
  rewrite (try_except_caught _ _ _ w e
             (emit (ReplicaSync p
                (node_id <$> filter (fun s => isinstance_ReplicaNode s = true) servers)) w)).
  - reflexivity.
  - rewrite (sync_servers_single servers p w Hlen Hp).
    unfold replica_sync. now rewrite Hsync.
  - assumption.
Qed.

(** ** Lines 79 to 87: teardown, relocation and aggregation *)

Lemma run_servers_continue servers metrics_file output_file w w1 w2 rows :
  NoDup (ids servers) ->
  Forall teardown_ok servers ->
  start_servers servers metrics_file w = (Return Continue, w1) ->
  try_except (sync_servers servers) is_Exception
    (fun e => LOG_warn ("Syncing databases failed: " +:+ exc_msg e)) w1 = (Return tt, w2) ->
  (forall s, s ∈ servers -> node_id s ∈ running w2) ->
  metrics_file ∉ METRICS_FILES w2 ->
  written metrics_file servers (metrics_dir w2 !! metrics_file) = Some rows ->
  exists w',
    run_servers servers metrics_file output_file w = (Return tt, w')
    /\ trace w' = trace w2 ++ (Teardown <$> ids servers) ++ [CreateResultsDir]
                    ++ (DeleteMetricsFile <$> METRICS_FILES w2)
                    ++ [MoveMetricsFile metrics_file output_file; aggregate_event rows]
    /\ results_dir w' = <[output_file := rows]> (results_dir w2)
    /\ running w' = running w2 ∖ list_to_set (ids servers)
    /\ METRICS_FILES w' = METRICS_FILES w2.
Proof.
  intros Hnd Htd Hstart Hsync Hrun Hmf Hrows.
  set (w3 := foldl (fun w s => teardown_world s w) w2 servers).
  set (w4 := emit CreateResultsDir w3).
  set (w5 := foldl (fun w f => delete_world f w) w4 (METRICS_FILES w2)).
  set (w6 := emit (MoveMetricsFile metrics_file output_file) w5).
  set (w7 := set_metrics_dir (delete metrics_file (metrics_dir w6))
               (set_results_dir (<[output_file := rows]> (results_dir w6)) w6)).
  assert (Hmf3 : METRICS_FILES w3 = METRICS_FILES w2)
    by (apply (foldl_field METRICS_FILES teardown_world), teardown_world_METRICS_FILES).
  assert (Hres3 : results_dir w3 = results_dir w2)
    by (apply (foldl_field results_dir teardown_world), teardown_world_results_dir).
  assert (Hres5 : results_dir w5 = results_dir w2).
  { unfold w5. rewrite (foldl_field results_dir delete_world) by reflexivity. exact Hres3. }
  assert (Hmf5 : METRICS_FILES w5 = METRICS_FILES w2).
  { unfold w5. rewrite (foldl_field METRICS_FILES delete_world) by reflexivity. exact Hmf3. }
  assert (Hrun5 : running w5 = running w2 ∖ list_to_set (ids servers)).
  { unfold w5. rewrite (foldl_field running delete_world) by reflexivity.
    apply teardowns_running. }
  assert (Htr5 : trace w5 = trace w2 ++ (Teardown <$> ids servers) ++ [CreateResultsDir]
                              ++ (DeleteMetricsFile <$> METRICS_FILES w2)).
  { unfold w5. rewrite deletes_trace. unfold w4. simpl. unfold w3.
    rewrite teardowns_trace. now rewrite <- !app_assoc. }
  assert (Hfile : metrics_dir w5 !! metrics_file = Some rows).
  { unfold w5. rewrite deletes_keep by assumption. unfold w4. simpl. unfold w3.
    rewrite teardowns_written by assumption. exact Hrows. }
  exists (emit (aggregate_event rows) w7). split_all.
  - unfold run_servers.
    rewrite (bind_Return _ _ _ Continue w1) by now apply try_except_Return.
    rewrite (bind_Return _ _ _ tt w2) by exact Hsync.
    rewrite (bind_Return _ _ _ tt w3).
    2:{ apply for_each_ok. intros s Hin w'. apply teardown_Return.
        rewrite Forall_forall in Htd. now apply Htd. }
    rewrite (bind_Return _ _ _ tt w4) by reflexivity.
    rewrite (bind_Return _ _ _ (METRICS_FILES w2) w4)
      by (unfold gets, w4; simpl; now rewrite Hmf3).
    rewrite (bind_Return _ _ _ tt w5) by now apply for_each_ok.
    rewrite (bind_Return _ _ _ tt w7).
    2:{ unfold move_metrics_file_to_results_dir, bind, modify, gets. simpl.
        rewrite Hfile. reflexivity. }
    apply aggregate_run. unfold w7, w6. simpl. apply lookup_insert_eq.
  - simpl. rewrite Htr5. rewrite <- !app_assoc. reflexivity.
  - simpl. now rewrite Hres5.
  - simpl. exact Hrun5.
  - simpl. exact Hmf5.
Qed.

(** ** The aggregation: claims *)






(** ** The synchronisation step: claims *)

(** C6.  On every list of servers with two or more primaries,
    [sync_servers] raises the multiple-primaries [RuntimeError] and leaves
    the world as it was: [replica_sync], which polls the replicas, is not
    called. *)
Theorem sync_servers_two_primaries_raise servers w :
  (2 <= length (filter (fun s => isinstance_PrimaryNode s = true) servers))%nat ->
  sync_servers servers w
  = (Raise (mkExc RuntimeError "Should never have multiple primaries running at once"), w)
  /\ forall p replicas, ReplicaSync p replicas ∈ trace (snd (sync_servers servers w)) ->
                        ReplicaSync p replicas ∈ trace w.
Proof.
  intros Hp. rewrite (sync_servers_multiple_primaries servers w Hp).
  split; [reflexivity|]. intros p replicas Hin. exact Hin.
Qed.

(** C8 (amended).  On every list of servers without a replica,
    [sync_servers] never polls and leaves the world as it was; it returns
    when at most one primary is present, and raises the multiple-primaries
    [RuntimeError] when two or more are. *)
Theorem sync_servers_no_replica servers w :
  filter (fun s => isinstance_ReplicaNode s = true) servers = [] ->
  sync_servers servers w
  = (if (2 <=? length (filter (fun s => isinstance_PrimaryNode s = true) servers))%nat
     then Raise (mkExc RuntimeError "Should never have multiple primaries running at once")
     else Return tt, w).
Proof.
  intros Hr.
  destruct (Nat.leb_spec 2 (length (filter (fun s => isinstance_PrimaryNode s = true) servers)))
    as [Hge|Hlt].
  - now apply sync_servers_multiple_primaries.
  - rewrite (no_replica_all_primaries servers Hr) in Hlt.
    unfold sync_servers.
    destruct (Nat.ltb_spec (length servers) 2) as [_|Hge]; [reflexivity|lia].
Qed.

(** ** Orders of setup and teardown in a trace *)

Lemma teardown_order_app evs1 evs2 :
  teardown_order (evs1 ++ evs2) = teardown_order evs1 ++ teardown_order evs2.
Proof. apply omap_app. Qed.

Lemma setup_order_app evs1 evs2 :
  setup_order (evs1 ++ evs2) = setup_order evs1 ++ setup_order evs2.
Proof. apply omap_app. Qed.

Lemma teardown_order_cons ev evs :
  teardown_order (ev :: evs)
  = match ev with Teardown i => i :: teardown_order evs | _ => teardown_order evs end.
Proof. now destruct ev. Qed.

Lemma setup_order_cons ev evs :
  setup_order (ev :: evs)
  = match ev with Setup i => i :: setup_order evs | _ => setup_order evs end.
Proof. now destruct ev. Qed.

Lemma teardown_order_Teardown l : teardown_order (Teardown <$> l) = l.
Proof.
  induction l as [|i l IH]; [reflexivity|].
  rewrite fmap_cons, teardown_order_cons. now rewrite IH.
Qed.

Lemma setup_order_Setup l : setup_order (Setup <$> l) = l.
Proof.
  induction l as [|i l IH]; [reflexivity|].
  rewrite fmap_cons, setup_order_cons. now rewrite IH.
Qed.

Lemma teardown_order_none {X} (f : X -> Event) l :
  (forall x j, f x <> Teardown j) -> teardown_order (f <$> l) = [].
Proof.
  intros Hf. induction l as [|x l IH]; [reflexivity|].
  rewrite fmap_cons, teardown_order_cons, IH. specialize (Hf x).
  destruct (f x); try reflexivity. now destruct (Hf oid).
Qed.

Lemma setup_order_none {X} (f : X -> Event) l :
  (forall x j, f x <> Setup j) -> setup_order (f <$> l) = [].
Proof.
  intros Hf. induction l as [|x l IH]; [reflexivity|].
  rewrite fmap_cons, setup_order_cons, IH. specialize (Hf x).
  destruct (f x); try reflexivity. now destruct (Hf oid).
Qed.

Lemma once_in_NoDup (i : nat) l :
  NoDup l -> i ∈ l -> length (filter (fun j => j = i) l) = 1%nat.
Proof.
  induction 1 as [|j l Hj Hnd IH]; intros Hin; [inversion Hin|].
  rewrite filter_cons. destruct (decide (j = i)) as [->|Hne].
  - simpl. f_equal. clear IH Hin Hnd.
    induction l as [|k l IH]; [reflexivity|].
    apply not_elem_of_cons in Hj as [Hk Hj].
    rewrite filter_cons_False by congruence. now apply IH.
  - apply IH. apply elem_of_cons in Hin as [->|Hin]; [contradiction|assumption].
Qed.

(** ** The servers alive after a failed setup *)

Lemma started_all w l :
  (forall x, x ∈ l -> node_id x ∈ running w) -> started w l = l.
Proof.
  unfold started. induction l as [|x l IH]; intros Hall; [reflexivity|].
  rewrite filter_cons_True by (apply Hall; left).
  f_equal. apply IH. intros y Hy. apply Hall. now right.
Qed.

Lemma started_none w l :
  (forall x, x ∈ l -> node_id x ∉ running w) -> started w l = [].
Proof.
  unfold started. induction l as [|x l IH]; intros Hall; [reflexivity|].
  rewrite filter_cons_False by (apply Hall; left).
  apply IH. intros y Hy. apply Hall. now right.
Qed.

Lemma started_app w l1 l2 : started w (l1 ++ l2) = started w l1 ++ started w l2.
Proof. apply filter_app. Qed.

Lemma failed_setup_world_running s w :
  running (failed_setup_world s w)
  = if alive_after_failed_setup (behaviour env (node_id s))
    then {[node_id s]} ∪ running w else running w.
Proof. unfold failed_setup_world. now destruct (alive_after_failed_setup _). Qed.

Lemma failed_setup_world_trace s w :
  trace (failed_setup_world s w) = trace w ++ [Setup (node_id s)].
Proof. unfold failed_setup_world. now destruct (alive_after_failed_setup _). Qed.

Lemma failed_setup_world_results_dir s w :
  results_dir (failed_setup_world s w) = results_dir w.
Proof. unfold failed_setup_world. now destruct (alive_after_failed_setup _). Qed.

Lemma started_after_failed_setup pre s post w :
  NoDup (ids (pre ++ s :: post)) ->
  (forall x, x ∈ pre ++ s :: post -> node_id x ∉ running w) ->
  started (failed_setup_world s (foldl (fun w s => setup_world s w) w pre)) (pre ++ s :: post)
  = pre ++ (if alive_after_failed_setup (behaviour env (node_id s)) then [s] else []).
Proof.
  intros Hnd Hfresh. unfold ids in Hnd. rewrite fmap_app, fmap_cons in Hnd.
  apply NoDup_app in Hnd as (_ & Hpre & Hnd). apply NoDup_cons in Hnd as [Hs _].
  assert (Hs' : node_id s ∉ node_id <$> pre).
  { intros Hin. apply (Hpre _ Hin). left. }
  assert (Hs0 : node_id s ∉ running w) by (apply Hfresh; set_solver).
  change (pre ++ s :: post) with (pre ++ [s] ++ post). rewrite !started_app.
  rewrite <- (app_nil_r (if alive_after_failed_setup (behaviour env (node_id s))
                         then [s] else [])).
  f_equal; [|f_equal].
  - apply started_all. intros x Hx.
    rewrite failed_setup_world_running, setups_running.
    assert (node_id x ∈ ids pre) by now apply list_elem_of_fmap_2.
    destruct (alive_after_failed_setup _); set_solver.
  - unfold started. rewrite filter_cons, filter_nil.
    rewrite failed_setup_world_running, setups_running.
    destruct (alive_after_failed_setup _).
    + rewrite decide_True by set_solver. reflexivity.
    + rewrite decide_False; [reflexivity|]. unfold ids. set_solver.
  - apply started_none. intros x Hx.
    rewrite failed_setup_world_running, setups_running.
    assert (Hx0 : node_id x ∉ running w) by (apply Hfresh; set_solver).
    assert (Hxs : node_id x <> node_id s).
    { intros Heq. apply Hs. rewrite <- Heq. now apply list_elem_of_fmap_2. }
    assert (Hxp : node_id x ∉ ids pre).
    { intros Hin. apply (Hpre _ Hin). right. now apply list_elem_of_fmap_2. }
    destruct (alive_after_failed_setup _); set_solver.
Qed.



(** ** Failure while the servers start: claims *)


(** C4 (amended).  When setting the servers up or running them raises a
    [RuntimeError], the invocation logs it and calls [teardown()] on the
    nodes whose process is alive, in list order, up to the first teardown
    that raises.  When no teardown raises, every node that was started is
    torn down exactly once, none is left alive, and the invocation
    returns. *)
Theorem runtime_error_cleanup servers metrics_file output_file w e w1 :
  NoDup (ids servers) ->
  start_servers servers metrics_file w = (Raise e, w1) ->
  is_RuntimeError e = true ->
  exists res w',
    run_servers servers metrics_file output_file w = (res, w')
    /\ trace w' = trace w1 ++ Log ERROR (exc_msg e)
                            :: (Teardown <$> ids (attempted (started w1 servers)))
    /\ attempted (started w1 servers) `prefix_of` started w1 servers
    /\ (Forall teardown_ok (started w1 servers) ->
        res = Return tt
        /\ attempted (started w1 servers) = started w1 servers
        /\ (forall s, s ∈ servers -> node_id s ∈ running w1 ->
            length (filter (fun i => i = node_id s)
                      (ids (attempted (started w1 servers)))) = 1%nat)
        /\ (forall s, s ∈ servers -> node_id s ∉ running w')).
Proof.
  intros Hnd Hstart He.
  destruct (run_servers_abort _ metrics_file output_file _ _ _ Hnd Hstart He)
    as (res & w' & Hrun & Htr & _ & _ & Hall & _).
  exists res, w'. split_all; try assumption.
  - apply attempted_prefix.
  - intros Hok. destruct (Hall Hok) as [-> Hrunning].
    rewrite (attempted_ok _ Hok). split_all; try reflexivity.
    + intros s Hin Halive. apply once_in_NoDup.
      * unfold ids, started in *. apply (NoDup_fmap_2_strong node_id).
        -- intros x y Hx Hy Heq.
           apply list_elem_of_filter in Hx as [_ Hx]. apply list_elem_of_filter in Hy as [_ Hy].
           apply NoDup_fmap_1 in Hnd as Hnd1.
           destruct (list_elem_of_lookup_1 _ _ Hx) as [i Hi].
           destruct (list_elem_of_lookup_1 _ _ Hy) as [j Hj].
           assert (i = j).
           { apply (NoDup_lookup _ i j (node_id x) Hnd);
               rewrite list_lookup_fmap; [now rewrite Hi | now rewrite Hj, Heq]. }
           subst j. congruence.
        -- apply NoDup_filter. now apply NoDup_fmap_1 in Hnd.
      * apply list_elem_of_fmap_2. unfold started. apply list_elem_of_filter. now split.
    + intros s Hin. rewrite Hrunning.
      assert (node_id s ∈ ids servers) by now apply list_elem_of_fmap_2.
      set_solver.
Qed.

(** ** The run that reaches the end *)

Lemma emit_all_trace evs w : trace (emit_all evs w) = trace w ++ evs.
Proof.
  unfold emit_all. rewrite (foldl_trace (fun ev w => emit ev w) id) by reflexivity.
  now rewrite list_fmap_id.
Qed.

Lemma emit_all_field {A} (field : World -> A) evs w :
  (forall ev w, field (emit ev w) = field w) -> field (emit_all evs w) = field w.
Proof. intros H. unfold emit_all. now apply (foldl_field field (fun ev w => emit ev w)). Qed.

Lemma new_events_app tr evs : new_events tr (tr ++ evs) = evs.
Proof. unfold new_events. now rewrite drop_app_length. Qed.

(** Whatever [sync_servers] does, short of raising an exception that is not
    an [Exception], the guarded call returns, and has neither set a node up
    nor torn one down. *)
Lemma sync_guarded_returns servers :
  (forall e, replica_sync_raises env = Some e -> is_Exception e = true) ->
  exists evs,
    (forall w, try_except (sync_servers servers) is_Exception
                 (fun e => LOG_warn ("Syncing databases failed: " +:+ exc_msg e)) w
               = (Return tt, emit_all evs w))
    /\ setup_order evs = [] /\ teardown_order evs = [].
Proof.
  intros Hexc. unfold try_except, sync_servers.
  destruct (length servers <? 2)%nat.
  { exists []. split_all; reflexivity. }
  destruct (1 <? length (node_id <$> filter (fun s => isinstance_PrimaryNode s = true) servers))%nat.
  { exists [Log WARN "Syncing databases failed: Should never have multiple primaries running at once"].
    split_all; reflexivity. }
  destruct (node_id <$> filter (fun s => isinstance_PrimaryNode s = true) servers) as [|p ps].
  { exists []. split_all; reflexivity. }
  unfold replica_sync.
  destruct (replica_sync_raises env) as [e|] eqn:Hsync.
  - exists [ReplicaSync p (node_id <$> filter (fun s => isinstance_ReplicaNode s = true) servers);
            Log WARN ("Syncing databases failed: " +:+ exc_msg e)].
    split_all; try reflexivity. intros w. simpl. now rewrite (Hexc e eq_refl).
  - exists [ReplicaSync p (node_id <$> filter (fun s => isinstance_ReplicaNode s = true) servers)].
    split_all; reflexivity.
Qed.

Lemma run_servers_completes servers metrics_file output_file w rows evs :
  NoDup (ids servers) ->
  Forall setup_ok servers -> Forall run_ok servers -> Forall teardown_ok servers ->
  (forall w1, try_except (sync_servers servers) is_Exception
                (fun e => LOG_warn ("Syncing databases failed: " +:+ exc_msg e)) w1
              = (Return tt, emit_all evs w1)) ->
  metrics_file ∉ METRICS_FILES w ->
  written metrics_file servers None = Some rows ->
  exists w',
    run_servers servers metrics_file output_file w = (Return tt, w')
    /\ trace w' = trace w ++ (Setup <$> ids servers) ++ [DeleteMetricsFile metrics_file]
                    ++ (Run <$> ids servers) ++ evs
                    ++ (Teardown <$> ids servers) ++ [CreateResultsDir]
                    ++ (DeleteMetricsFile <$> METRICS_FILES w)
                    ++ [MoveMetricsFile metrics_file output_file; aggregate_event rows]
    /\ results_dir w' = <[output_file := rows]> (results_dir w)
    /\ running w' = running w ∖ list_to_set (ids servers)
    /\ METRICS_FILES w' = METRICS_FILES w.
Proof.
  intros Hnd Hs Hr Htd Hsync Hmf Hrows.
  set (w0 := foldl (fun w s => setup_world s w) w servers).
  set (w1 := foldl (fun w s => run_world s w) (delete_world metrics_file w0) servers).
  assert (Hstart : start_servers servers metrics_file w = (Return Continue, w1))
    by now apply start_servers_ok.
  assert (Hmf1 : METRICS_FILES w1 = METRICS_FILES w).
  { unfold w1. rewrite (foldl_field METRICS_FILES run_world) by reflexivity. simpl.
    now apply (foldl_field METRICS_FILES setup_world). }
  assert (Hres1 : results_dir w1 = results_dir w).
  { unfold w1. rewrite (foldl_field results_dir run_world) by reflexivity. simpl.
    now apply (foldl_field results_dir setup_world). }
  assert (Hrun1 : running w1 = list_to_set (ids servers) ∪ running w).
  { unfold w1. rewrite (foldl_field running run_world) by reflexivity. simpl.
    apply setups_running. }
  assert (Hdir1 : metrics_dir w1 !! metrics_file = None).
  { unfold w1. rewrite (foldl_field metrics_dir run_world) by reflexivity. simpl.
    apply lookup_delete_eq. }
  assert (Htr1 : trace w1 = trace w ++ (Setup <$> ids servers)
                              ++ [DeleteMetricsFile metrics_file] ++ (Run <$> ids servers)).
  { unfold w1. rewrite runs_trace. simpl. unfold w0. rewrite setups_trace.
    now rewrite <- !app_assoc. }
  destruct (run_servers_continue servers metrics_file output_file w w1 (emit_all evs w1) rows)
    as (w' & Hrun & Htr & Hres & Hrunning & Hmf'); try assumption.
  - apply Hsync.
  - intros s Hin. rewrite (emit_all_field running) by reflexivity. rewrite Hrun1.
    assert (node_id s ∈ ids servers) by now apply list_elem_of_fmap_2.
    set_solver.
  - rewrite (emit_all_field METRICS_FILES) by reflexivity. now rewrite Hmf1.
  - rewrite (emit_all_field metrics_dir) by reflexivity. now rewrite Hdir1.
  - rewrite (emit_all_field METRICS_FILES) in Htr, Hmf' by reflexivity.
    rewrite (emit_all_field results_dir) in Hres by reflexivity.
    rewrite (emit_all_field running) in Hrunning by reflexivity.
    rewrite emit_all_trace in Htr.
    exists w'. split_all.
    + exact Hrun.
    + rewrite Htr, Htr1, Hmf1. now rewrite <- !app_assoc.
    + now rewrite Hres, Hres1.
    + rewrite Hrunning, Hrun1. set_solver.
    + now rewrite Hmf', Hmf1.
Qed.

Lemma aggregate_event_enough rows :
  (3 <= length rows)%nat -> aggregate_event rows = LogAvgThroughput (spec_throughput rows).
Proof.
  intros Hlen. unfold aggregate_event.
  destruct (Nat.ltb_spec (length rows) 3); [lia|reflexivity].
Qed.

(** ** Synchronisation failures: claims *)

(** C5.  When the servers start and stop without error and
    [replica_sync] raises an [Exception] (a timeout), the invocation logs
    the warning "Syncing databases failed: ..." and goes on: it tears every
    node down, deletes the other metrics files, moves the metrics file to
    the results directory under the output name, and logs the throughput
    of its rows.  It returns, and no node is left alive. *)
Theorem sync_failure_is_not_fatal servers p e metrics_file output_file w rows :
  NoDup (ids servers) ->
  Forall setup_ok servers -> Forall run_ok servers -> Forall teardown_ok servers ->
  (2 <= length servers)%nat ->
  node_id <$> filter (fun s => isinstance_PrimaryNode s = true) servers = [p] ->
  replica_sync_raises env = Some e ->
  is_Exception e = true ->
  metrics_file ∉ METRICS_FILES w ->
  written metrics_file servers None = Some rows ->
  (3 <= length rows)%nat ->
  exists w',
    run_servers servers metrics_file output_file w = (Return tt, w')
    /\ trace w' = trace w ++ (Setup <$> ids servers) ++ [DeleteMetricsFile metrics_file]
                    ++ (Run <$> ids servers)
                    ++ [ReplicaSync p
                          (node_id <$> filter (fun s => isinstance_ReplicaNode s = true) servers);
                        Log WARN ("Syncing databases failed: " +:+ exc_msg e)]
                    ++ (Teardown <$> ids servers) ++ [CreateResultsDir]
                    ++ (DeleteMetricsFile <$> METRICS_FILES w)
                    ++ [MoveMetricsFile metrics_file output_file;
                        LogAvgThroughput (spec_throughput rows)]
    /\ results_dir w' !! output_file = Some rows
    /\ (forall s, s ∈ servers -> node_id s ∉ running w').
Proof.
  intros Hnd Hs Hr Htd Hlen Hp Hsync He Hmf Hrows Hrows3.
  destruct (run_servers_completes servers metrics_file output_file w rows
              [ReplicaSync p
                 (node_id <$> filter (fun s => isinstance_ReplicaNode s = true) servers);
               Log WARN ("Syncing databases failed: " +:+ exc_msg e)])
    as (w' & Hrun & Htr & Hres & Hrunning & _); try assumption.
  - intros w1. now apply sync_failure_is_warning.
  - exists w'. split_all.
    + exact Hrun.
    + rewrite Htr. now rewrite aggregate_event_enough.
    + rewrite Hres. apply lookup_insert_eq.
    + intros s Hin. rewrite Hrunning.
      assert (node_id s ∈ ids servers) by now apply list_elem_of_fmap_2.
      set_solver.
Qed.


(** ** The order of teardown: claim *)

Lemma prefix_fmap {A B} (f : A -> B) (l1 l2 : list A) :
  l1 `prefix_of` l2 -> f <$> l1 `prefix_of` f <$> l2.
Proof. intros [k ->]. exists (f <$> k). apply fmap_app. Qed.

(** C9 (amended).  On both paths the nodes are torn down in the order of
    the list of servers, which is the order in which they were set up, and
    not in its reverse.  After a [RuntimeError] of a [setup()], the
    teardowns follow a prefix of the setups; in a run that reaches the end,
    the teardowns and the setups both follow the list.  [get_servers] puts
    the primary first, so in a primary and replica run the primary is torn
    down first. *)
Theorem teardown_follows_setup_order servers metrics_file output_file w :
  NoDup (ids servers) ->
  (forall pre s post e,
      servers = pre ++ s :: post ->
      (forall x, x ∈ servers -> node_id x ∉ running w) ->
      Forall setup_ok pre ->
      setup_raises (behaviour env (node_id s)) = Some e ->
      is_RuntimeError e = true ->
      exists res w',
        run_servers servers metrics_file output_file w = (res, w')
        /\ setup_order (new_events (trace w) (trace w')) = ids (pre ++ [s])
        /\ teardown_order (new_events (trace w) (trace w'))
           `prefix_of` setup_order (new_events (trace w) (trace w')))
  /\ (forall rows,
      Forall setup_ok servers -> Forall run_ok servers -> Forall teardown_ok servers ->
      (forall e, replica_sync_raises env = Some e -> is_Exception e = true) ->
      metrics_file ∉ METRICS_FILES w ->
      written metrics_file servers None = Some rows ->
      exists w',
        run_servers servers metrics_file output_file w = (Return tt, w')
        /\ setup_order (new_events (trace w) (trace w')) = ids servers
        /\ teardown_order (new_events (trace w) (trace w')) = ids servers)
  /\ (forall build_type async_commit oltp_benchmark scale_factor log_messages_file
             connection_threads,
      isinstance_PrimaryNode
        <$> get_servers PRIMARY build_type true async_commit oltp_benchmark scale_factor
              log_messages_file connection_threads
      = [true; false]).
Proof.
  intros Hnd. split_all.
  - intros pre s post e -> Hfresh Hpre Hs He.
    pose proof (start_servers_setup_fails pre s post e metrics_file w Hpre Hs) as Hstart.
    destruct (run_servers_abort _ metrics_file output_file _ _ _ Hnd Hstart He)
      as (res & w' & Hrun & Htr & _).
    rewrite started_after_failed_setup in Htr by assumption.
    rewrite failed_setup_world_trace, setups_trace in Htr.
    exists res, w'. split; [exact Hrun|].
    rewrite Htr, <- !app_assoc, new_events_app.
    rewrite !setup_order_app, !teardown_order_app.
    change (Log ERROR (exc_msg e) :: ?l) with ([Log ERROR (exc_msg e)] ++ l).
    rewrite !setup_order_app, !teardown_order_app.
    rewrite setup_order_Setup, teardown_order_Teardown.
    rewrite (teardown_order_none Setup) by discriminate.
    rewrite (setup_order_none Teardown) by discriminate.
    simpl. unfold ids. rewrite fmap_app. simpl.
    split; [reflexivity|].
    change ((node_id <$> pre) ++ [node_id s]) with ((node_id <$> pre) ++ (node_id <$> [s])).
    rewrite <- fmap_app. apply prefix_fmap.
    etransitivity; [apply attempted_prefix|].
    apply prefix_app. destruct (alive_after_failed_setup _); [reflexivity|apply prefix_nil].
  - intros rows Hs Hr Htd Hexc Hmf Hrows.
    destruct (sync_guarded_returns servers Hexc) as (evs & Hsync & Hevs_s & Hevs_t).
    destruct (run_servers_completes servers metrics_file output_file w rows evs)
      as (w' & Hrun & Htr & _); try assumption.
    exists w'. split; [exact Hrun|].
    rewrite Htr, new_events_app.
    rewrite !setup_order_app, !teardown_order_app.
    rewrite setup_order_Setup, teardown_order_Teardown, Hevs_s, Hevs_t.
    rewrite (teardown_order_none Setup), (teardown_order_none Run) by discriminate.
    rewrite (setup_order_none Teardown), (setup_order_none Run) by discriminate.
    rewrite (teardown_order_none DeleteMetricsFile) by discriminate.
    rewrite (setup_order_none DeleteMetricsFile) by discriminate.
    unfold aggregate_event. destruct (length rows <? 3)%nat; simpl;
      rewrite !app_nil_r; split; reflexivity.
  - reflexivity.
Qed.

(** ** What a run leaves untouched *)

Lemma keeps_ret {A B} (field : World -> B) (a : A) : keeps field (ret a).
Proof. intros w. reflexivity. Qed.

Lemma keeps_raise {A B} (field : World -> B) e : keeps field (@raise A e).
Proof. intros w. reflexivity. Qed.

Lemma keeps_gets {A B} (field : World -> B) (f : World -> A) : keeps field (gets f).
Proof. intros w. reflexivity. Qed.

Lemma keeps_modify {B} (field : World -> B) f :
  (forall w, field (f w) = field w) -> keeps field (modify f).
Proof. intros H w. apply H. Qed.

Lemma keeps_bind {A A' B} (field : World -> B) (m : M A) (k : A -> M A') :
  keeps field m -> (forall a, keeps field (k a)) -> keeps field (bind m k).
Proof.
  intros Hm Hk w. unfold bind. specialize (Hm w).
  destruct (m w) as [[a|e] w1]; simpl in *; [|assumption].
  now rewrite Hk.
Qed.

Lemma keeps_try_except {A B} (field : World -> B) (body : M A) catches handler :
  keeps field body -> (forall e, keeps field (handler e)) ->
  keeps field (try_except body catches handler).
Proof.
  intros Hb Hh w. unfold try_except. specialize (Hb w).
  destruct (body w) as [[a|e] w1]; simpl in *; [assumption|].
  destruct (catches e); simpl; [|assumption]. now rewrite Hh.
Qed.

Lemma keeps_for_each {X B} (field : World -> B) (l : list X) body :
  (forall x, keeps field (body x)) -> keeps field (for_each l body).
Proof.
  intros Hb. induction l as [|x l IH]; simpl.
  - apply keeps_ret.
  - apply keeps_bind; [apply Hb | intros _; exact IH].
Qed.

(** Walks through a computation built from the combinators above. *)
Ltac keeps_tac :=
  repeat first
    [ apply keeps_ret
    | apply keeps_raise
    | apply keeps_gets
    | apply keeps_modify; intros; reflexivity
    | apply keeps_bind; [|intros ?]
    | apply keeps_try_except; [|intros ?]
    | apply keeps_for_each; intros ?
    | progress cbv zeta
    | match goal with
      | |- keeps _ (match ?x with _ => _ end) => destruct x
      end ].

Lemma run_servers_keeps_METRICS_FILES servers metrics_file output_file :
  keeps METRICS_FILES (run_servers servers metrics_file output_file).
Proof.
  unfold run_servers, start_servers, teardown_running, sync_servers, replica_sync,
    aggregate_log_throughput, move_metrics_file_to_results_dir, delete_metrics_files,
    delete_metrics_file, create_results_dir, read_csv, iloc, setup, run, teardown,
    is_running, LOG_error, LOG_warn.
  keeps_tac.
Qed.

Lemma list_remove_None x l : list_remove x l = None <-> x ∉ l.
Proof.
  induction l as [|y l IH]; simpl.
  - split; [intros _; apply not_elem_of_nil | reflexivity].
  - destruct (String.eqb_spec y x) as [->|Hne].
    + split; [discriminate|]. intros H. exfalso. apply H. left.
    + rewrite not_elem_of_cons. destruct (list_remove x l); simpl.
      * split; [discriminate|]. intros [_ H]. apply IH in H. discriminate.
      * split; [|reflexivity]. intros _. split; [congruence|]. now apply IH.
Qed.

Lemma list_remove_NoDup x l l' :
  NoDup l -> list_remove x l = Some l' -> x ∉ l'.
Proof.
  intros Hnd. revert l'. induction Hnd as [|y l Hy Hnd IH]; intros l'; simpl; [discriminate|].
  destruct (String.eqb_spec y x) as [->|Hne].
  - intros [= <-]. assumption.
  - destruct (list_remove x l) as [l0|]; simpl; [|discriminate].
    intros [= <-]. rewrite not_elem_of_cons. split; [congruence|]. now apply IH.
Qed.

(** [get_servers] builds at most one primary, and at most two nodes, with
    distinct identities. *)
Lemma get_servers_one_primary test_type build_type replication_enabled async_commit
    oltp_benchmark scale_factor log_messages_file connection_threads :
  (length (filter (fun s => isinstance_PrimaryNode s = true)
             (get_servers test_type build_type replication_enabled async_commit
                oltp_benchmark scale_factor log_messages_file connection_threads)) <= 1)%nat
  /\ NoDup (ids (get_servers test_type build_type replication_enabled async_commit
                   oltp_benchmark scale_factor log_messages_file connection_threads)).
Proof.
  destruct test_type, replication_enabled; split; try (vm_compute; lia);
    apply (bool_decide_unpack _); vm_compute; exact I.
Qed.

(** ** More on the aggregation *)









(** ** More on the synchronisation step and the node factory *)

Lemma primaries_and_replicas servers :
  (length (filter (fun s => isinstance_PrimaryNode s = true) servers)
   + length (filter (fun s => isinstance_ReplicaNode s = true) servers))%nat
  = length servers.
Proof.
  induction servers as [|s l IH]; [reflexivity|].
  destruct s.
  - rewrite filter_cons_True by reflexivity.
    rewrite (filter_cons_False (fun s => isinstance_ReplicaNode s = true)) by discriminate.
    simpl. lia.
  - rewrite filter_cons_False by discriminate.
    rewrite (filter_cons_True (fun s => isinstance_ReplicaNode s = true)) by reflexivity.
    simpl. lia.
Qed.

(** X5.  [sync_servers] polls exactly when the list has at least two
    servers and exactly one primary: it then calls [replica_sync] once, with
    that primary and with all the other servers, at least one, as replicas,
    and ends as that call ends.  In every other case it leaves the world as
    it was. *)
Theorem sync_servers_polls_exactly_when servers w :
  (forall p,
      (2 <= length servers)%nat ->
      node_id <$> filter (fun s => isinstance_PrimaryNode s = true) servers = [p] ->
      sync_servers servers w
      = replica_sync p (node_id <$> filter (fun s => isinstance_ReplicaNode s = true) servers) w
      /\ length (node_id <$> filter (fun s => isinstance_ReplicaNode s = true) servers)
         = (length servers - 1)%nat
      /\ node_id <$> filter (fun s => isinstance_ReplicaNode s = true) servers <> [])
  /\ ((length servers < 2)%nat
      \/ length (filter (fun s => isinstance_PrimaryNode s = true) servers) <> 1%nat ->
      snd (sync_servers servers w) = w).
Proof.
  split.
  - intros p Hlen Hp. split_all.
    + now apply sync_servers_single.
    + pose proof (primaries_and_replicas servers) as Hsum.
      apply (f_equal length) in Hp. rewrite length_fmap in Hp. simpl in Hp.
      rewrite length_fmap. lia.
    + pose proof (primaries_and_replicas servers) as Hsum.
      apply (f_equal length) in Hp. rewrite length_fmap in Hp. simpl in Hp.
      intros Hnil. apply (f_equal length) in Hnil. rewrite length_fmap in Hnil.
      simpl in Hnil. lia.
  - intros Hcase. unfold sync_servers.
    destruct (Nat.ltb_spec (length servers) 2) as [|Hge]; [reflexivity|].
    rewrite length_fmap.
    destruct (Nat.ltb_spec 1 (length (filter (fun s => isinstance_PrimaryNode s = true) servers)))
      as [|Hle]; [reflexivity|].
    destruct (filter (fun s => isinstance_PrimaryNode s = true) servers) as [|s l] eqn:Hf;
      [reflexivity|].
    exfalso. destruct Hcase as [Hlt|Hne]; [lia|]. apply Hne.
    simpl in *. lia.
Qed.

(** X6.  In an invocation the synchronisation polls only in a primary test
    with replication enabled, and then with the primary (node 0) and the one
    replica (node 1); in a primary test without replication and in a replica
    test [sync_servers] returns at once. *)
Theorem sync_only_with_replication test_type build_type replication_enabled async_commit
    oltp_benchmark scale_factor log_messages_file connection_threads w :
  sync_servers (get_servers test_type build_type replication_enabled async_commit
                  oltp_benchmark scale_factor log_messages_file connection_threads) w
  = match test_type, replication_enabled with
    | PRIMARY, true => replica_sync 0 [1%nat] w
    | _, _ => (Return tt, w)
    end.
Proof. destruct test_type, replication_enabled; reflexivity. Qed.

(** ** Every path of a run *)

Lemma first_failure (raises : NodeServer -> option PyExc) l :
  Forall (fun s => raises s = None) l
  \/ exists pre s post e,
       l = pre ++ s :: post /\ Forall (fun s => raises s = None) pre /\ raises s = Some e.
Proof.
  induction l as [|x l IH]; [left; constructor|].
  destruct (raises x) as [e|] eqn:Hx.
  - right. exists [], x, l, e. split_all; [reflexivity|constructor|assumption].
  - destruct IH as [Hall|(pre & s & post & e & -> & Hpre & Hs)].
    + left. now constructor.
    + right. exists (x :: pre), s, post, e. split_all; [reflexivity|now constructor|assumption].
Qed.

Lemma prefix_is_sublist {A} (l1 l2 : list A) : l1 `prefix_of` l2 -> l1 `sublist_of` l2.
Proof. intros [k ->]. now apply sublist_inserts_r. Qed.

Lemma run_servers_unfold servers metrics_file output_file :
  run_servers servers metrics_file output_file
  = (flow <- try_except (start_servers servers metrics_file) is_RuntimeError
               (fun e => LOG_error (exc_msg e) ;; teardown_running servers ;; ret Returned) ;;
     match flow with
     | Returned => ret tt
     | Continue =>
         try_except (sync_servers servers) is_Exception
           (fun e => LOG_warn ("Syncing databases failed: " +:+ exc_msg e)) ;;
         for_each servers teardown ;;
         finish_servers metrics_file output_file
     end).
Proof. reflexivity. Qed.

Lemma run_servers_aborts servers metrics_file output_file w e w1 :
  start_servers servers metrics_file w = (Raise e, w1) ->
  is_RuntimeError e = true ->
  run_servers servers metrics_file output_file w
  = teardown_running servers (emit (Log ERROR (exc_msg e)) w1).
Proof.
  intros Hstart He. unfold run_servers. unfold bind at 1.
  rewrite (try_except_caught _ _ _ _ e w1) by assumption.
  unfold LOG_error. unfold bind at 1. unfold modify at 1. unfold bind at 1.
  destruct (teardown_running servers (emit (Log ERROR (exc_msg e)) w1)) as [[[]|e'] w'];
    reflexivity.
Qed.

Lemma run_servers_continues servers metrics_file output_file w flow w1 :
  start_servers servers metrics_file w = (Return flow, w1) ->
  run_servers servers metrics_file output_file w
  = (try_except (sync_servers servers) is_Exception
       (fun e => LOG_warn ("Syncing databases failed: " +:+ exc_msg e)) ;;
     for_each servers teardown ;;
     finish_servers metrics_file output_file) w1.
Proof.
  intros Hstart. rewrite run_servers_unfold.
  assert (flow = Continue) as ->.
  { unfold start_servers, bind in Hstart.
    destruct (for_each servers setup w) as [[[]|e] w0]; [|discriminate].
    destruct (delete_metrics_file metrics_file w0) as [[[]|e] w0']; [|discriminate].
    destruct (for_each servers run w0') as [[[]|e] w0'']; [|discriminate].
    now inversion Hstart. }
  rewrite (bind_Return _ _ _ Continue w1) by now apply try_except_Return.
  reflexivity.
Qed.

(** The first [try] body: which servers were set up and run, and whether the
    metrics file was deleted in between. *)
Lemma start_servers_shape servers metrics_file w :
  exists S R (del : bool),
    trace (snd (start_servers servers metrics_file w))
    = trace w ++ (Setup <$> ids S)
        ++ (if del then [DeleteMetricsFile metrics_file] else []) ++ (Run <$> ids R)
    /\ S `prefix_of` servers /\ R `prefix_of` servers
    /\ (del = true -> S = servers) /\ (R <> [] -> del = true)
    /\ (forall flow, fst (start_servers servers metrics_file w) = Return flow ->
        R = servers /\ S = servers)
    /\ running (snd (start_servers servers metrics_file w))
       ⊆ list_to_set (ids S) ∪ running w
    /\ results_dir (snd (start_servers servers metrics_file w)) = results_dir w.
Proof.
  destruct (first_failure (fun s => setup_raises (behaviour env (node_id s))) servers)
    as [Hsetup|(pre & s & post & e & -> & Hpre & Hs)].
  - destruct (first_failure (fun s => run_raises (behaviour env (node_id s))) servers)
      as [Hrun|(pre & s & post & e & -> & Hpre & Hs)].
    + rewrite (start_servers_ok servers metrics_file w Hsetup Hrun). cbn [fst snd].
      exists servers, servers, true.
      refine (conj _ (conj _ (conj _ (conj _ (conj _ (conj _ (conj _ _))))))).
      * rewrite runs_trace. simpl. rewrite setups_trace. now rewrite <- !app_assoc.
      * reflexivity.
      * reflexivity.
      * reflexivity.
      * reflexivity.
      * now intros.
      * rewrite (foldl_field running run_world) by reflexivity. simpl.
        now rewrite setups_running.
      * rewrite (foldl_field results_dir run_world) by reflexivity. simpl.
        now apply (foldl_field results_dir setup_world).
    + rewrite (start_servers_run_fails pre s post e metrics_file w Hsetup Hpre Hs).
      cbn [fst snd].
      exists (pre ++ s :: post), (pre ++ [s]), true.
      refine (conj _ (conj _ (conj _ (conj _ (conj _ (conj _ (conj _ _))))))).
      * simpl. rewrite runs_trace. simpl. rewrite setups_trace.
        unfold ids. rewrite !fmap_app. simpl. now rewrite <- !app_assoc.
      * reflexivity.
      * exists post. now rewrite <- app_assoc.
      * reflexivity.
      * reflexivity.
      * discriminate.
      * simpl. rewrite (foldl_field running run_world) by reflexivity. simpl.
        now rewrite setups_running.
      * simpl. rewrite (foldl_field results_dir run_world) by reflexivity. simpl.
        now apply (foldl_field results_dir setup_world).
  - rewrite (start_servers_setup_fails pre s post e metrics_file w Hpre Hs). cbn [fst snd].
    exists (pre ++ [s]), [], false.
    refine (conj _ (conj _ (conj _ (conj _ (conj _ (conj _ (conj _ _))))))).
    + rewrite failed_setup_world_trace, setups_trace.
      unfold ids. rewrite !fmap_app. simpl. now rewrite <- !app_assoc, !app_nil_r.
    + exists post. now rewrite <- app_assoc.
    + apply prefix_nil.
    + discriminate.
    + congruence.
    + discriminate.
    + rewrite failed_setup_world_running, setups_running.
      unfold ids. rewrite fmap_app. simpl.
      destruct (alive_after_failed_setup _); set_solver.
    + rewrite failed_setup_world_results_dir.
      now apply (foldl_field results_dir setup_world).
Qed.

Lemma teardown_if_running s w :
  (alive <- is_running s ;; if alive then teardown s else ret tt) w
  = if bool_decide (node_id s ∈ running w) then teardown s w else (Return tt, w).
Proof. unfold bind, is_running, gets. now destruct (bool_decide _). Qed.

Lemma teardown_running_cons s l w :
  teardown_running (s :: l) w
  = if bool_decide (node_id s ∈ running w)
    then match teardown s w with
         | (Return _, w') => teardown_running l w'
         | (Raise e, w') => (Raise e, w')
         end
    else teardown_running l w.
Proof.
  change (teardown_running (s :: l) w)
    with (((alive <- is_running s ;; if alive then teardown s else ret tt) ;;
           teardown_running l) w).
  unfold bind at 1. rewrite teardown_if_running.
  destruct (bool_decide _); [|reflexivity].
  now destruct (teardown s w) as [[[]|e] w'].
Qed.

(** The cleanup loop never starts a process, and when it returns none of
    the servers is alive. *)
Lemma teardown_running_stops l w :
  running (snd (teardown_running l w)) ⊆ running w
  /\ (fst (teardown_running l w) = Return tt ->
      forall s, s ∈ l -> node_id s ∉ running (snd (teardown_running l w))).
Proof.
  revert w. induction l as [|s l IH]; intros w.
  - split; [reflexivity|]. intros _ s Hs. inversion Hs.
  - rewrite teardown_running_cons.
    destruct (decide (node_id s ∈ running w)) as [Hin|Hnin].
    + rewrite bool_decide_eq_true_2 by assumption.
      destruct (teardown_raises (behaviour env (node_id s))) as [e|] eqn:Htd.
      * rewrite (teardown_Raise s e w Htd). cbv beta iota. cbn [fst snd].
        split; [set_solver|]. intros H. discriminate H.
      * rewrite (teardown_Return s w Htd). cbv beta iota.
        destruct (IH (teardown_world s w)) as [Hsub Hret].
        rewrite teardown_world_running in Hsub.
        split; [set_solver|].
        intros Hfst x Hx. apply elem_of_cons in Hx as [->|Hx]; [|now apply Hret].
        set_solver.
    + rewrite bool_decide_eq_false_2 by assumption. cbv beta iota.
      destruct (IH w) as [Hsub Hret].
      split; [assumption|].
      intros Hfst x Hx. apply elem_of_cons in Hx as [->|Hx]; [|now apply Hret].
      set_solver.
Qed.

(** The guarded synchronisation only polls and logs, whatever its outcome. *)
Lemma sync_guarded_shape servers w :
  exists mid,
    snd (try_except (sync_servers servers) is_Exception
           (fun e => LOG_warn ("Syncing databases failed: " +:+ exc_msg e)) w)
    = emit_all mid w
    /\ Forall is_sync_event mid.
Proof.
  unfold try_except, sync_servers.
  destruct (length servers <? 2)%nat; [exists []; split; [reflexivity|constructor]|].
  destruct (1 <? length _)%nat.
  { eexists [_]. split; [reflexivity|]. repeat constructor. }
  destruct (node_id <$> filter _ servers) as [|p ?];
    [exists []; split; [reflexivity|constructor]|].
  unfold replica_sync, bind, modify.
  destruct (replica_sync_raises env) as [e|].
  - unfold raise. destruct (is_Exception e).
    + eexists [_; _]. split; [reflexivity|]. repeat constructor.
    + eexists [_]. split; [reflexivity|]. repeat constructor.
  - eexists [_]. split; [reflexivity|]. repeat constructor.
Qed.

(** The teardown loop of line 79: the servers torn down are a prefix of the
    list, all of it when the loop returns. *)
Lemma teardowns_shape servers w :
  exists T,
    T `prefix_of` servers
    /\ trace (snd (for_each servers teardown w)) = trace w ++ (Teardown <$> ids T)
    /\ results_dir (snd (for_each servers teardown w)) = results_dir w
    /\ (fst (for_each servers teardown w) = Return tt ->
        T = servers
        /\ snd (for_each servers teardown w) = foldl (fun w s => teardown_world s w) w servers).
Proof.
  destruct (first_failure (fun s => teardown_raises (behaviour env (node_id s))) servers)
    as [Hok|(pre & s & post & e & -> & Hpre & Hs)].
  - rewrite (for_each_ok teardown_world teardown servers).
    2:{ intros s Hin w'. apply teardown_Return. rewrite Forall_forall in Hok. now apply Hok. }
    cbn [fst snd]. exists servers.
    refine (conj _ (conj _ (conj _ _))).
    + reflexivity.
    + apply teardowns_trace.
    + apply (foldl_field results_dir teardown_world). apply teardown_world_results_dir.
    + now intros.
  - rewrite (for_each_fail teardown_world teardown pre s post e) with
      (w' := emit (Teardown (node_id s)) (foldl (fun w s => teardown_world s w) w pre)).
    2:{ intros y Hy w'. apply teardown_Return. rewrite Forall_forall in Hpre. now apply Hpre. }
    2:{ now apply teardown_Raise. }
    cbn [fst snd]. exists (pre ++ [s]).
    refine (conj _ (conj _ (conj _ _))).
    + exists post. now rewrite <- app_assoc.
    + simpl. rewrite teardowns_trace. unfold ids. rewrite !fmap_app.
      now rewrite <- app_assoc.
    + simpl. apply (foldl_field results_dir teardown_world). apply teardown_world_results_dir.
    + intros H. discriminate H.
Qed.

Lemma cleared_world_trace w :
  trace (cleared_world w)
  = trace w ++ CreateResultsDir :: (DeleteMetricsFile <$> METRICS_FILES w).
Proof.
  unfold cleared_world. rewrite deletes_trace. simpl. now rewrite <- app_assoc.
Qed.


Lemma cleared_world_running w : running (cleared_world w) = running w.
Proof.
  unfold cleared_world. now rewrite (foldl_field running delete_world) by reflexivity.
Qed.

(** Lines 82 to 87 in one step: the result is reported when the metrics file
    is still there after the deletions, and otherwise the move fails. *)
Lemma finish_servers_run metrics_file output_file w :
  finish_servers metrics_file output_file w
  = match metrics_dir (cleared_world w) !! metrics_file with
    | Some rows =>
        (Return tt,
         emit (aggregate_event rows)
           (moved_world metrics_file output_file rows (cleared_world w)))
    | None =>
        (Raise (mkExc FileNotFoundError metrics_file),
         emit (MoveMetricsFile metrics_file output_file) (cleared_world w))
    end.
Proof.
  unfold finish_servers, create_results_dir.
  rewrite (bind_Return _ _ w tt (emit CreateResultsDir w)) by reflexivity.
  rewrite (bind_Return _ _ _ (METRICS_FILES w) (emit CreateResultsDir w)) by reflexivity.
  rewrite (bind_Return _ _ _ tt (cleared_world w)).
  2:{ unfold delete_metrics_files, cleared_world.
      apply (for_each_ok delete_world). intros f _ w'. reflexivity. }
  unfold move_metrics_file_to_results_dir.
  destruct (metrics_dir (cleared_world w) !! metrics_file) as [rows|] eqn:Hrows.
  - rewrite (bind_Return _ _ _ tt (moved_world metrics_file output_file rows (cleared_world w))).
    2:{ unfold bind, modify, gets. cbn [metrics_dir emit]. now rewrite Hrows. }
    apply aggregate_run. unfold moved_world. simpl. apply lookup_insert_eq.
  - apply bind_Raise. unfold bind, modify, gets. cbn [metrics_dir emit]. now rewrite Hrows.
Qed.

(** The cleanup loop of the handler tears down servers of the list that were
    alive when it began, in the order of the list. *)
Lemma teardown_running_shape l w :
  exists T,
    T `sublist_of` l
    /\ (forall t, t ∈ T -> node_id t ∈ running w)
    /\ trace (snd (teardown_running l w)) = trace w ++ (Teardown <$> ids T)
    /\ results_dir (snd (teardown_running l w)) = results_dir w.
Proof.
  revert w. induction l as [|s l IH]; intros w.
  - exists []. split_all; [constructor | intros t Ht; inversion Ht | | reflexivity].
    simpl. now rewrite app_nil_r.
  - rewrite teardown_running_cons.
    destruct (decide (node_id s ∈ running w)) as [Hin|Hnin].
    + rewrite bool_decide_eq_true_2 by assumption.
      destruct (teardown_raises (behaviour env (node_id s))) as [e|] eqn:Htd.
      * rewrite (teardown_Raise s e w Htd). cbv beta iota. cbn [fst snd].
        exists [s]. split_all.
        -- apply sublist_skip, sublist_nil_l.
        -- intros t Ht. apply list_elem_of_singleton in Ht as ->. assumption.
        -- reflexivity.
        -- reflexivity.
      * rewrite (teardown_Return s w Htd). cbv beta iota.
        destruct (IH (teardown_world s w)) as (T & HT & Hrun & Htr & Hres).
        exists (s :: T). split_all.
        -- now apply sublist_skip.
        -- intros t Ht. apply elem_of_cons in Ht as [->|Ht]; [assumption|].
           specialize (Hrun t Ht). rewrite teardown_world_running in Hrun. set_solver.
        -- rewrite Htr, teardown_world_trace, <- app_assoc. reflexivity.
        -- now rewrite Hres, teardown_world_results_dir.
    + rewrite bool_decide_eq_false_2 by assumption. cbv beta iota.
      destruct (IH w) as (T & HT & Hrun & Htr & Hres).
      exists T. split_all; try assumption. now apply sublist_cons.
Qed.

Lemma aggregate_event_is_result rows : is_result_event (aggregate_event rows).
Proof. unfold aggregate_event. now destruct (length rows <? 3)%nat. Qed.

Lemma Forall_result_deletes files : Forall is_result_event (DeleteMetricsFile <$> files).
Proof. induction files; simpl; constructor; [exact I|assumption]. Qed.

Lemma no_ReplicaSync_nil p replicas : ReplicaSync p replicas ∈ @nil Event -> False.
Proof. intros H. inversion H. Qed.

Ltac blocks_tac :=
  repeat rewrite <- app_assoc; rewrite new_events_app; simpl;
  repeat rewrite <- app_assoc; rewrite ?app_nil_r; reflexivity.

(** Every path of lines 57 to 87 makes its calls in the blocks of
    [lifecycle]. *)
Lemma run_servers_blocks servers metrics_file output_file w :
  exists S R T del mid fin,
    lifecycle servers metrics_file
      (new_events (trace w) (trace (snd (run_servers servers metrics_file output_file w))))
      S R T del mid fin
    /\ (forall t, t ∈ T -> node_id t ∈ ids S \/ node_id t ∈ running w).
Proof.
  destruct (start_servers_shape servers metrics_file w)
    as (S & R & del & Htr1 & HS & HR & Hdel & HRdel & Hret & Hrun1 & _).
  destruct (start_servers servers metrics_file w) as [[flow|e] w1] eqn:Hstart;
    cbn [fst snd] in *.
  - (* the servers are set up and run *)
    destruct (Hret flow eq_refl) as [-> ->].
    rewrite (run_servers_continues _ _ _ _ _ _ Hstart).
    destruct (sync_guarded_shape servers w1) as (mid & Hmid & Hsync).
    unfold bind at 1.
    destruct (try_except _ _ _ w1) as [[[]|e] w2]; cbn [snd] in Hmid; subst w2.
    + destruct (teardowns_shape servers (emit_all mid w1)) as (T & HT & HtrT & _ & HretT).
      unfold bind at 1.
      destruct (for_each servers teardown (emit_all mid w1)) as [[[]|e] w3];
        cbn [fst snd] in *.
      * destruct (HretT eq_refl) as [-> _].
        rewrite emit_all_trace, Htr1 in HtrT.
        rewrite finish_servers_run.
        destruct (metrics_dir (cleared_world w3) !! metrics_file) as [rows|]; cbn [snd].
        -- exists servers, servers, servers, del,  mid,
             (CreateResultsDir :: (DeleteMetricsFile <$> METRICS_FILES w3)
                ++ [MoveMetricsFile metrics_file output_file; aggregate_event rows]).
           split; [|intros t Ht; left; now apply list_elem_of_fmap_2].
           unfold lifecycle.
           refine (conj _ (conj _ (conj _ (conj _ (conj _ (conj _ (conj _ (conj _ (conj _ _))))))))).
           ++ simpl. rewrite cleared_world_trace, HtrT. blocks_tac.
           ++ reflexivity.
           ++ reflexivity.
           ++ reflexivity.
           ++ reflexivity.
           ++ assumption.
           ++ assumption.
           ++ constructor; [exact I|]. apply Forall_app. split; [apply Forall_result_deletes|].
              repeat constructor. apply aggregate_event_is_result.
           ++ now intros.
           ++ now intros.
        -- exists servers, servers, servers, del, mid,
             (CreateResultsDir :: (DeleteMetricsFile <$> METRICS_FILES w3)
                ++ [MoveMetricsFile metrics_file output_file]).
           split; [|intros t Ht; left; now apply list_elem_of_fmap_2].
           unfold lifecycle.
           refine (conj _ (conj _ (conj _ (conj _ (conj _ (conj _ (conj _ (conj _ (conj _ _))))))))).
           ++ simpl. rewrite cleared_world_trace, HtrT. blocks_tac.
           ++ reflexivity.
           ++ reflexivity.
           ++ reflexivity.
           ++ reflexivity.
           ++ assumption.
           ++ assumption.
           ++ constructor; [exact I|]. apply Forall_app. split; [apply Forall_result_deletes|].
              repeat constructor.
           ++ now intros.
           ++ now intros.
      * exists servers, servers, T, del, mid, [].
        split.
        2:{ intros t Ht. left. apply list_elem_of_fmap_2.
            eapply elem_of_sublist; [exact Ht|]. now apply prefix_is_sublist. }
        rewrite emit_all_trace, Htr1 in HtrT.
        unfold lifecycle.
        refine (conj _ (conj _ (conj _ (conj _ (conj _ (conj _ (conj _ (conj _ (conj _ _))))))))).
        -- rewrite HtrT. blocks_tac.
        -- reflexivity.
        -- reflexivity.
        -- now apply prefix_is_sublist.
        -- reflexivity.
        -- assumption.
        -- assumption.
        -- constructor.
        -- intros H. now contradiction H.
        -- now intros.
    + exists servers, servers, [], del, mid, [].
      split; [|intros t Ht; inversion Ht].
      unfold lifecycle.
      refine (conj _ (conj _ (conj _ (conj _ (conj _ (conj _ (conj _ (conj _ (conj _ _))))))))).
      * cbv beta iota. cbn [snd]. rewrite emit_all_trace, Htr1. blocks_tac.
      * reflexivity.
      * reflexivity.
      * apply sublist_nil_l.
      * reflexivity.
      * assumption.
      * assumption.
      * constructor.
      * intros H. now contradiction H.
      * now intros.
  - destruct (is_RuntimeError e) eqn:He.
    + (* the handler of line 67 *)
      rewrite (run_servers_aborts _ _ _ _ _ _ Hstart He).
      destruct (teardown_running_shape servers (emit (Log ERROR (exc_msg e)) w1))
        as (T & HT & HrunT & HtrT & _).
      exists S, R, T, del, [Log ERROR (exc_msg e)], [].
      split.
      2:{ intros t Ht. specialize (HrunT t Ht). simpl in HrunT.
          apply Hrun1 in HrunT. apply elem_of_union in HrunT as [H|H]; [left|now right].
          now apply elem_of_list_to_set in H. }
      unfold lifecycle.
      refine (conj _ (conj _ (conj _ (conj _ (conj _ (conj _ (conj _ (conj _ (conj _ _))))))))).
      * rewrite HtrT. simpl. rewrite Htr1. blocks_tac.
      * assumption.
      * assumption.
      * assumption.
      * assumption.
      * assumption.
      * repeat constructor.
      * constructor.
      * intros H. now contradiction H.
      * intros p replicas H. apply list_elem_of_singleton in H. discriminate H.
    + rewrite (run_servers_uncaught _ _ _ _ _ _ Hstart He). cbn [snd].
      exists S, R, [], del, [], [].
      split; [|intros t Ht; inversion Ht].
      unfold lifecycle.
      refine (conj _ (conj _ (conj _ (conj _ (conj _ (conj _ (conj _ (conj _ (conj _ _))))))))).
      * rewrite Htr1. blocks_tac.
      * assumption.
      * assumption.
      * apply sublist_nil_l.
      * assumption.
      * assumption.
      * constructor.
      * constructor.
      * intros H. now contradiction H.
      * intros p replicas H. inversion H.
Qed.

(** ** What the blocks say about the order of the calls *)

Lemma block_before {A} (Q : A -> Prop) x (blk rest pre post : list A) :
  blk ++ rest = pre ++ x :: post -> Forall Q blk -> ~ Q x -> blk `prefix_of` pre.
Proof.
  intros Heq Hblk Hx. apply app_eq_inv in Heq as [(k & -> & Hk)|(k & -> & _)].
  - destruct k as [|y k]; [rewrite app_nil_r; reflexivity|].
    simpl in Hk. inversion Hk; subst y.
    apply Forall_app in Hblk as [_ Hblk]. apply Forall_cons in Hblk as [Hq _].
    contradiction.
  - now exists k.
Qed.

Lemma elem_of_prefix {A} (x : A) (l1 l2 : list A) : x ∈ l1 -> l1 `prefix_of` l2 -> x ∈ l2.
Proof. intros Hx [k ->]. apply elem_of_app. now left. Qed.

Lemma Forall_fmap_const {A B} (Q : B -> Prop) (f : A -> B) l :
  (forall x, Q (f x)) -> Forall Q (f <$> l).
Proof. intros H. induction l; simpl; constructor; auto. Qed.

Lemma omap_none {A B} (f : A -> option B) l : Forall (fun x => f x = None) l -> omap f l = [].
Proof.
  induction 1 as [|x l Hx _ IH]; [reflexivity|].
  change (omap f (x :: l)) with (match f x with Some y => y :: omap f l | None => omap f l end).
  now rewrite Hx.
Qed.

Lemma run_order_Run l : run_order (Run <$> l) = l.
Proof.
  induction l as [|i l IH]; [reflexivity|].
  change (run_order (Run <$> i :: l)) with (i :: run_order (Run <$> l)). now rewrite IH.
Qed.

Lemma lifecycle_elem servers metrics_file evs S R T del mid fin ev :
  lifecycle servers metrics_file evs S R T del mid fin -> ev ∈ evs ->
  (exists i, i ∈ ids S /\ ev = Setup i)
  \/ (del = true /\ ev = DeleteMetricsFile metrics_file)
  \/ (exists i, i ∈ ids R /\ ev = Run i)
  \/ ev ∈ mid
  \/ (exists i, i ∈ ids T /\ ev = Teardown i)
  \/ ev ∈ fin.
Proof.
  intros (-> & _) Hin.
  repeat (apply elem_of_app in Hin as [Hin|Hin]).
  - left. apply list_elem_of_fmap in Hin as (i & -> & Hi). now exists i.
  - right; left. destruct del; [|inversion Hin].
    apply list_elem_of_singleton in Hin. now split.
  - right; right; left. apply list_elem_of_fmap in Hin as (i & -> & Hi). now exists i.
  - tauto.
  - do 4 right; left. apply list_elem_of_fmap in Hin as (i & -> & Hi). now exists i.
  - tauto.
Qed.

Lemma lifecycle_Run servers metrics_file evs S R T del mid fin i :
  lifecycle servers metrics_file evs S R T del mid fin -> Run i ∈ evs -> i ∈ ids R.
Proof.
  intros Hl Hin. pose proof Hl as (_ & _ & _ & _ & _ & _ & Hmid & Hfin & _).
  destruct (lifecycle_elem _ _ _ _ _ _ _ _ _ _ Hl Hin)
    as [(j & _ & H)|[(_ & H)|[(j & Hj & H)|[H|[(j & _ & H)|H]]]]]; try discriminate H.
  - now inversion H.
  - rewrite Forall_forall in Hmid. now apply Hmid in H.
  - rewrite Forall_forall in Hfin. now apply Hfin in H.
Qed.

Lemma lifecycle_Teardown servers metrics_file evs S R T del mid fin i :
  lifecycle servers metrics_file evs S R T del mid fin -> Teardown i ∈ evs -> i ∈ ids T.
Proof.
  intros Hl Hin. pose proof Hl as (_ & _ & _ & _ & _ & _ & Hmid & Hfin & _).
  destruct (lifecycle_elem _ _ _ _ _ _ _ _ _ _ Hl Hin)
    as [(j & _ & H)|[(_ & H)|[(j & Hj & H)|[H|[(j & Hj & H)|H]]]]]; try discriminate H.
  - rewrite Forall_forall in Hmid. now apply Hmid in H.
  - now inversion H.
  - rewrite Forall_forall in Hfin. now apply Hfin in H.
Qed.

Lemma lifecycle_report servers metrics_file evs S R T del mid fin ev :
  lifecycle servers metrics_file evs S R T del mid fin ->
  is_report_event ev -> ev ∈ evs -> ev ∈ fin.
Proof.
  intros Hl Hev Hin. pose proof Hl as (_ & _ & _ & _ & _ & _ & Hmid & _).
  destruct (lifecycle_elem _ _ _ _ _ _ _ _ _ _ Hl Hin)
    as [(j & _ & ->)|[(_ & ->)|[(j & Hj & ->)|[H|[(j & Hj & ->)|H]]]]];
    try contradiction; try assumption.
  rewrite Forall_forall in Hmid. apply Hmid in H. now destruct ev.
Qed.

Lemma lifecycle_all servers metrics_file evs S R T del mid fin :
  lifecycle servers metrics_file evs S R T del mid fin ->
  R = servers -> servers <> [] -> del = true /\ S = servers.
Proof.
  intros (_ & _ & _ & _ & Hdel & HRdel & _) -> Hne.
  specialize (HRdel Hne). now split; [|apply Hdel].
Qed.

Lemma block_after {A} (Q : A -> Prop) x (rest blk pre post : list A) :
  rest ++ blk = pre ++ x :: post -> Forall Q blk -> ~ Q x -> pre `prefix_of` rest.
Proof.
  intros Heq Hblk Hx. apply app_eq_inv in Heq as [(k & -> & _)|(k & -> & Hk)].
  - now exists k.
  - rewrite Hk in Hblk. apply Forall_app in Hblk as [_ Hblk].
    apply Forall_cons in Hblk as [Hq _]. contradiction.
Qed.

(** X7.  On every path of an invocation, a [run()] is called only when
    every server of the list has been set up and the metrics file of the
    test has been deleted: whatever precedes a [run()] in the calls of the
    invocation holds the [setup()] of each server and that deletion. *)
Theorem run_only_after_every_setup servers metrics_file output_file w pre post i :
  new_events (trace w) (trace (snd (run_servers servers metrics_file output_file w)))
  = pre ++ Run i :: post ->
  DeleteMetricsFile metrics_file ∈ pre
  /\ (forall s, s ∈ servers -> Setup (node_id s) ∈ pre).
Proof.
  intros Hev.
  destruct (run_servers_blocks servers metrics_file output_file w)
    as (S & R & T & del & mid & fin & Hl & _).
  assert (Hi : i ∈ ids R).
  { apply (lifecycle_Run _ _ _ _ _ _ _ _ _ _ Hl). rewrite Hev.
    apply elem_of_app. right. left. }
  destruct Hl as (Hevs & _ & _ & _ & Hdel & HRdel & _).
  assert (del = true) as -> by (apply HRdel; intros ->; inversion Hi).
  rewrite (Hdel eq_refl) in Hevs. rewrite Hev in Hevs.
  rewrite (app_assoc (Setup <$> ids servers)) in Hevs. symmetry in Hevs.
  apply (block_before
           (fun ev => match ev with Setup _ | DeleteMetricsFile _ => True | _ => False end))
    in Hevs.
  - split.
    + eapply elem_of_prefix; [|exact Hevs]. apply elem_of_app. right. left.
    + intros s Hs. eapply elem_of_prefix; [|exact Hevs]. apply elem_of_app. left.
      apply list_elem_of_fmap_2. now apply list_elem_of_fmap_2.
  - apply Forall_app. split; [now apply Forall_fmap_const|]. now repeat constructor.
  - intros H. exact H.
Qed.

(** X8.  When no server of the list is alive at the start, a node is torn
    down only after its own [setup()] was called: on every path, whatever
    precedes a [teardown()] in the calls of the invocation holds the
    [setup()] of the same node. *)
Theorem teardown_only_after_own_setup servers metrics_file output_file w pre post i :
  (forall s, s ∈ servers -> node_id s ∉ running w) ->
  new_events (trace w) (trace (snd (run_servers servers metrics_file output_file w)))
  = pre ++ Teardown i :: post ->
  Setup i ∈ pre.
Proof.
  intros Hfresh Hev.
  destruct (run_servers_blocks servers metrics_file output_file w)
    as (S & R & T & del & mid & fin & Hl & HTS).
  assert (Hi : i ∈ ids T).
  { apply (lifecycle_Teardown _ _ _ _ _ _ _ _ _ _ Hl). rewrite Hev.
    apply elem_of_app. right. left. }
  apply list_elem_of_fmap in Hi as (t & -> & Ht).
  destruct Hl as (Hevs & _ & _ & HT & _ & _ & Hmid & _).
  assert (HiS : node_id t ∈ ids S).
  { destruct (HTS t Ht) as [H|H]; [assumption|].
    exfalso. apply (Hfresh t); [|assumption]. eapply elem_of_sublist; eassumption. }
  rewrite Hev in Hevs. rewrite !app_assoc in Hevs. rewrite <- (app_assoc _ _ fin) in Hevs.
  symmetry in Hevs.
  apply (block_before
           (fun ev => match ev with Teardown _ => False | _ => True end))
    in Hevs.
  - eapply elem_of_prefix; [|exact Hevs]. rewrite <- !app_assoc.
    apply elem_of_app. left. now apply list_elem_of_fmap_2.
  - repeat (apply Forall_app; split); try now apply Forall_fmap_const.
    + now destruct del; repeat constructor.
    + eapply Forall_impl; [exact Hmid|]. now intros [].
  - intros H. exact H.
Qed.

(** X9.  On every path, the results directory is created, the metrics file
    is moved and a throughput is reported only when every server of the list
    has been set up, run and torn down: whatever precedes such a call holds
    the three calls of each server. *)
Theorem report_only_after_every_teardown servers metrics_file output_file w pre post ev :
  is_report_event ev ->
  new_events (trace w) (trace (snd (run_servers servers metrics_file output_file w)))
  = pre ++ ev :: post ->
  forall s, s ∈ servers ->
    Setup (node_id s) ∈ pre /\ Run (node_id s) ∈ pre /\ Teardown (node_id s) ∈ pre.
Proof.
  intros Hrep Hev s Hs.
  destruct (run_servers_blocks servers metrics_file output_file w)
    as (S & R & T & del & mid & fin & Hl & _).
  assert (Hfin : ev ∈ fin).
  { apply (lifecycle_report _ _ _ _ _ _ _ _ _ _ Hl Hrep). rewrite Hev.
    apply elem_of_app. right. left. }
  pose proof Hl as (Hevs & _ & _ & _ & _ & _ & Hmid & _ & Hall & _).
  destruct Hall as [-> ->]; [intros ->; inversion Hfin|].
  destruct (lifecycle_all _ _ _ _ _ _ _ _ _ Hl eq_refl) as [-> ->];
    [intros ->; inversion Hs|].
  rewrite Hev in Hevs. rewrite !app_assoc in Hevs. symmetry in Hevs.
  apply (block_before (fun ev => ~ is_report_event ev)) in Hevs.
  - assert (Hid : node_id s ∈ ids servers) by now apply list_elem_of_fmap_2.
    split_all; (eapply elem_of_prefix; [|exact Hevs]); rewrite <- !app_assoc.
    + apply elem_of_app. left. now apply list_elem_of_fmap_2.
    + do 2 (apply elem_of_app; right). apply elem_of_app. left.
      now apply list_elem_of_fmap_2.
    + do 4 (apply elem_of_app; right). now apply list_elem_of_fmap_2.
  - repeat (apply Forall_app; split);
      try (apply Forall_fmap_const; intros ? H; exact H).
    + repeat constructor. intros H. exact H.
    + eapply Forall_impl; [exact Hmid|]. intros [] H H'; try exact H'; exact H.
  - intros H. now apply H.
Qed.

(** X10.  An invocation that returns leaves no server of the list alive,
    whichever way it returns: after the handler of line 67 or at the end of
    the run. *)
Theorem return_leaves_no_server_alive servers metrics_file output_file w :
  fst (run_servers servers metrics_file output_file w) = Return tt ->
  forall s, s ∈ servers ->
    node_id s ∉ running (snd (run_servers servers metrics_file output_file w)).
Proof.
  destruct (start_servers servers metrics_file w) as [[flow|e] w1] eqn:Hstart.
  - rewrite (run_servers_continues _ _ _ _ _ _ Hstart).
    unfold bind.
    destruct (try_except _ _ _ w1) as [[[]|e] w2]; [|intros H; discriminate H].
    destruct (teardowns_shape servers w2) as (T & _ & _ & _ & HretT).
    destruct (for_each servers teardown w2) as [[[]|e] w3]; [|intros H; discriminate H].
    cbn [fst snd] in HretT. destruct (HretT eq_refl) as [_ ->].
    rewrite finish_servers_run.
    destruct (metrics_dir _ !! metrics_file) as [rows|]; [|intros H; discriminate H].
    intros _ s Hs. cbn [snd].
    replace (running (emit (aggregate_event rows)
                        (moved_world metrics_file output_file rows
                           (cleared_world (foldl (fun w s => teardown_world s w) w2 servers)))))
      with (running (cleared_world (foldl (fun w s => teardown_world s w) w2 servers)))
      by reflexivity.
    rewrite cleared_world_running, teardowns_running.
    assert (node_id s ∈ ids servers) by now apply list_elem_of_fmap_2.
    set_solver.
  - destruct (is_RuntimeError e) eqn:He.
    + rewrite (run_servers_aborts _ _ _ _ _ _ Hstart He).
      apply teardown_running_stops.
    + rewrite (run_servers_uncaught _ _ _ _ _ _ Hstart He). intros H. discriminate H.
Qed.

(** X11.  On every path the calls follow the list of servers: the nodes set
    up are a prefix of the list, in its order, and so are the nodes run; the
    nodes torn down are nodes of the list, in its order.  With distinct
    nodes, none of the three calls is made twice on a node. *)
Theorem calls_follow_the_list servers metrics_file output_file w :
  let evs :=
    new_events (trace w) (trace (snd (run_servers servers metrics_file output_file w))) in
  setup_order evs `prefix_of` ids servers
  /\ run_order evs `prefix_of` ids servers
  /\ teardown_order evs `sublist_of` ids servers
  /\ (NoDup (ids servers) ->
      NoDup (setup_order evs) /\ NoDup (run_order evs) /\ NoDup (teardown_order evs)).
Proof.
  intros evs.
  destruct (run_servers_blocks servers metrics_file output_file w)
    as (S & R & T & del & mid & fin & (Hevs & HS & HR & HT & _ & _ & Hmid & Hfin & _) & _).
  fold evs in Hevs.
  assert (Hso : setup_order evs = ids S).
  { rewrite Hevs. unfold setup_order. rewrite !omap_app.
    change (omap _ (Setup <$> ids S)) with (setup_order (Setup <$> ids S)).
    rewrite setup_order_Setup.
    rewrite (omap_none _ (if del then _ else _)) by (destruct del; repeat constructor).
    rewrite (omap_none _ (Run <$> _)) by now apply Forall_fmap_const.
    rewrite (omap_none _ mid) by (eapply Forall_impl; [exact Hmid|]; now intros []).
    rewrite (omap_none _ (Teardown <$> _)) by now apply Forall_fmap_const.
    rewrite (omap_none _ fin) by (eapply Forall_impl; [exact Hfin|]; now intros []).
    now rewrite !app_nil_r. }
  assert (Hro : run_order evs = ids R).
  { rewrite Hevs. unfold run_order. rewrite !omap_app.
    change (omap _ (Run <$> ids R)) with (run_order (Run <$> ids R)).
    rewrite run_order_Run.
    rewrite (omap_none _ (Setup <$> _)) by now apply Forall_fmap_const.
    rewrite (omap_none _ (if del then _ else _)) by (destruct del; repeat constructor).
    rewrite (omap_none _ mid) by (eapply Forall_impl; [exact Hmid|]; now intros []).
    rewrite (omap_none _ (Teardown <$> _)) by now apply Forall_fmap_const.
    rewrite (omap_none _ fin) by (eapply Forall_impl; [exact Hfin|]; now intros []).
    now rewrite !app_nil_r. }
  assert (Hto : teardown_order evs = ids T).
  { rewrite Hevs. unfold teardown_order. rewrite !omap_app.
    change (omap _ (Teardown <$> ids T)) with (teardown_order (Teardown <$> ids T)).
    rewrite teardown_order_Teardown.
    rewrite (omap_none _ (Setup <$> _)) by now apply Forall_fmap_const.
    rewrite (omap_none _ (if del then _ else _)) by (destruct del; repeat constructor).
    rewrite (omap_none _ (Run <$> _)) by now apply Forall_fmap_const.
    rewrite (omap_none _ mid) by (eapply Forall_impl; [exact Hmid|]; now intros []).
    rewrite (omap_none _ fin) by (eapply Forall_impl; [exact Hfin|]; now intros []).
    now rewrite !app_nil_r. }
  rewrite Hso, Hro, Hto.
  assert (HS' : ids S `prefix_of` ids servers) by now apply prefix_fmap.
  assert (HR' : ids R `prefix_of` ids servers) by now apply prefix_fmap.
  assert (HT' : ids T `sublist_of` ids servers) by now apply fmap_sublist.
  split_all; try assumption.
  intros Hnd. split_all; eapply sublist_NoDup; try exact Hnd;
    first [assumption | now apply prefix_is_sublist].
Qed.


(** X13.  On every path the replicas are polled only between the runs and
    the teardowns: whatever precedes a call of [replica_sync] holds the
    [setup()] and the [run()] of each server of the list, and no
    [teardown()]. *)
Theorem sync_only_between_runs_and_teardowns servers metrics_file output_file w
    pre post p replicas :
  new_events (trace w) (trace (snd (run_servers servers metrics_file output_file w)))
  = pre ++ ReplicaSync p replicas :: post ->
  (forall s, s ∈ servers -> Setup (node_id s) ∈ pre /\ Run (node_id s) ∈ pre)
  /\ (forall j, Teardown j ∉ pre).
Proof.
  intros Hev.
  destruct (run_servers_blocks servers metrics_file output_file w)
    as (S & R & T & del & mid & fin & Hl & _).
  pose proof Hl as (Hevs & _ & _ & _ & _ & _ & Hmid & Hfin & _ & Hsync).
  assert (Hin : ReplicaSync p replicas ∈ mid).
  { assert (H : ReplicaSync p replicas
                ∈ new_events (trace w)
                    (trace (snd (run_servers servers metrics_file output_file w))))
      by (rewrite Hev; apply elem_of_app; right; left).
    destruct (lifecycle_elem _ _ _ _ _ _ _ _ _ _ Hl H)
      as [(j & _ & H')|[(_ & H')|[(j & _ & H')|[H'|[(j & _ & H')|H']]]]];
      try discriminate H'; [assumption|].
    rewrite Forall_forall in Hfin. now apply Hfin in H'. }
  specialize (Hsync _ _ Hin). subst R.
  rewrite Hev in Hevs. split.
  - intros s Hs.
    destruct (lifecycle_all _ _ _ _ _ _ _ _ _ Hl eq_refl) as [-> ->];
      [intros ->; inversion Hs|].
    rewrite !app_assoc in Hevs. rewrite <- !(app_assoc _ _ fin) in Hevs.
    rewrite <- !(app_assoc _ mid) in Hevs. symmetry in Hevs.
    apply (block_before
             (fun ev => match ev with ReplicaSync _ _ => False | _ => True end))
      in Hevs.
    + assert (Hid : node_id s ∈ ids servers) by now apply list_elem_of_fmap_2.
      split; (eapply elem_of_prefix; [|exact Hevs]); rewrite <- !app_assoc.
      * apply elem_of_app. left. now apply list_elem_of_fmap_2.
      * do 2 (apply elem_of_app; right). now apply list_elem_of_fmap_2.
    + repeat (apply Forall_app; split); try now apply Forall_fmap_const.
      now repeat constructor.
    + intros H. exact H.
  - intros j Hj.
    rewrite !app_assoc in Hevs. rewrite <- (app_assoc _ _ fin) in Hevs. symmetry in Hevs.
    apply (block_after
             (fun ev => match ev with ReplicaSync _ _ => False | _ => True end))
      in Hevs.
    + apply (elem_of_prefix _ _ _ Hj) in Hevs.
      repeat (apply elem_of_app in Hevs as [Hevs|Hevs]).
      * apply list_elem_of_fmap in Hevs as (? & H & _). discriminate H.
      * destruct del; [|inversion Hevs]. apply list_elem_of_singleton in Hevs.
        discriminate Hevs.
      * apply list_elem_of_fmap in Hevs as (? & H & _). discriminate H.
      * rewrite Forall_forall in Hmid. now apply Hmid in Hevs.
    + apply Forall_app. split; [now apply Forall_fmap_const|].
      eapply Forall_impl; [exact Hfin|]. now intros [].
    + intros H. exact H.
Qed.

Lemma written_get_servers test_type build_type replication_enabled async_commit
    oltp_benchmark scale_factor log_messages_file connection_threads :
  LOG_SERIALIZER_CSV <> RECOVERY_MANAGER_CSV ->
  written (metrics_file_for test_type)
    (get_servers test_type build_type replication_enabled async_commit oltp_benchmark
       scale_factor log_messages_file connection_threads) None
  = Some (run_samples (behaviour env 0)).
Proof.
  intros Hne. unfold written, metrics_file_for, metrics_file_of.
  destruct test_type, replication_enabled; simpl;
    repeat match goal with
           | |- context [decide (?a = ?b)] => destruct (decide (a = b)); try congruence
           end.
Qed.

(** X14.  The result of a run in which nothing fails.  Whatever the test
    type and the replication flag, when no call on a node raises and the
    synchronisation raises at most an [Exception], the invocation returns,
    and the file it leaves in the results directory under the output name
    holds exactly the rows that the measured node, the first of the list,
    wrote between its [run()] and its [teardown()]: neither the rows a server
    wrote while starting, nor what the metrics file held before, nor the
    rows of the replica of a primary test.  The last call of the invocation
    reports on those rows. *)
Theorem healthy_run_result_file test_type build_type replication_enabled async_commit
    oltp_benchmark scale_factor log_messages_file connection_threads output_file w :
  LOG_SERIALIZER_CSV <> RECOVERY_MANAGER_CSV ->
  NoDup (METRICS_FILES w) ->
  metrics_file_for test_type ∈ METRICS_FILES w ->
  (forall i, setup_raises (behaviour env i) = None
             /\ run_raises (behaviour env i) = None
             /\ teardown_raises (behaviour env i) = None) ->
  (forall e, replica_sync_raises env = Some e -> is_Exception e = true) ->
  exists w',
    log_throughput test_type build_type replication_enabled async_commit oltp_benchmark
      scale_factor log_messages_file connection_threads output_file w
    = (Return tt, w')
    /\ results_dir w'
       = <[match output_file with
           | Some name => name
           | None => default_output_file test_type (time_time env)
           end := run_samples (behaviour env 0)]> (results_dir w)
    /\ last (trace w') = Some (aggregate_event (run_samples (behaviour env 0))).
Proof.
  intros Hne Hnd Hin Hok Hsync.
  destruct (list_remove (metrics_file_for test_type) (METRICS_FILES w)) as [files'|] eqn:Hrm;
    [|apply list_remove_None in Hrm; contradiction].
  set (servers := get_servers test_type build_type replication_enabled async_commit
                    oltp_benchmark scale_factor log_messages_file connection_threads).
  set (out := match output_file with
              | Some name => name
              | None => default_output_file test_type (time_time env)
              end).
  destruct (sync_guarded_returns servers Hsync) as (evs & Hevs & _).
  destruct (run_servers_completes servers (metrics_file_for test_type) out
              (set_METRICS_FILES files' w) (run_samples (behaviour env 0)) evs)
    as (w' & Hrun & Htr & Hres & _).
  - apply get_servers_one_primary.
  - apply Forall_forall. intros s _. apply Hok.
  - apply Forall_forall. intros s _. apply Hok.
  - apply Forall_forall. intros s _. apply Hok.
  - exact Hevs.
  - simpl. eapply list_remove_NoDup; eassumption.
  - now apply written_get_servers.
  - exists w'. split_all.
    + unfold log_throughput. cbv zeta. unfold metrics_file_for in Hrm, Hrun.
      unfold bind at 1. unfold gets. rewrite Hrm.
      unfold bind at 1. unfold modify.
      unfold out, default_output_file in Hrun. destruct output_file; exact Hrun.
    + exact Hres.
    + rewrite Htr. rewrite !app_assoc.
      change [MoveMetricsFile (metrics_file_for test_type) out;
              aggregate_event (run_samples (behaviour env 0))]
        with ([MoveMetricsFile (metrics_file_for test_type) out]
                ++ [aggregate_event (run_samples (behaviour env 0))]).
      rewrite app_assoc. apply last_snoc.
Qed.

(** ** The default name of the output file *)

Lemma string_app_inv_head (s a b : string) : s +:+ a = s +:+ b -> a = b.
Proof. induction s as [|c s IH]; simpl; intros H; [exact H|]. injection H. exact IH. Qed.

Lemma list_ascii_of_string_app (a b : string) :
  String.list_ascii_of_string (a +:+ b)
  = String.list_ascii_of_string a ++ String.list_ascii_of_string b.
Proof. induction a as [|c a IH]; simpl; [reflexivity|]. now rewrite IH. Qed.

Lemma string_app_inv_tail (s a b : string) : a +:+ s = b +:+ s -> a = b.
Proof.
  intros H. apply (f_equal String.list_ascii_of_string) in H.
  rewrite !list_ascii_of_string_app in H. apply app_inv_tail in H.
  apply (f_equal String.string_of_list_ascii) in H.
  now rewrite !String.string_of_list_ascii_of_string in H.
Qed.

(** X15.  Without an output name, the invocation writes its result under
    the name made of the test type and the time in seconds (line 48), and
    two such names are the same only for the same test type and the same
    second: results of invocations that differ in either are not
    overwritten by one another. *)
Theorem default_output_file_is_unique test_type build_type replication_enabled async_commit
    oltp_benchmark scale_factor log_messages_file connection_threads w t1 n1 t2 n2 :
  log_throughput test_type build_type replication_enabled async_commit oltp_benchmark
    scale_factor log_messages_file connection_threads None w
  = log_throughput test_type build_type replication_enabled async_commit oltp_benchmark
      scale_factor log_messages_file connection_threads
      (Some (default_output_file test_type (time_time env))) w
  /\ (default_output_file t1 n1 = default_output_file t2 n2 <-> t1 = t2 /\ n1 = n2).
Proof.
  split; [reflexivity|]. split.
  - unfold default_output_file. intros H.
    destruct t1, t2; try (simpl in H; discriminate H); split; try reflexivity;
      apply string_app_inv_head in H; apply string_app_inv_head in H;
      apply string_app_inv_tail in H; now apply (inj pretty) in H.
  - now intros [-> ->].
Qed.
End LogThroughput.

(** ** The module-global list: claim *)

(** C10.  [log_throughput] removes the metrics file of the test type from
    the list [METRICS_FILES] itself and never puts it back: whatever the
    first call does, the list it leaves is the list without (the first
    occurrence of) that name.  When the names of the list are distinct, a
    second call with the same test type, in any environment and with any
    other arguments, raises the [ValueError] of [list.remove] before it has
    created a server or called anything: the world is as the first call
    left it. *)
Theorem second_call_raises_ValueError
    LOG_SERIALIZER_CSV RECOVERY_MANAGER_CSV env env' test_type
    build_type replication_enabled async_commit oltp_benchmark scale_factor
    log_messages_file connection_threads output_file
    build_type' replication_enabled' async_commit' oltp_benchmark' scale_factor'
    log_messages_file' connection_threads' output_file' w res w1 :
  NoDup (METRICS_FILES w) ->
  log_throughput LOG_SERIALIZER_CSV RECOVERY_MANAGER_CSV env test_type build_type
    replication_enabled async_commit oltp_benchmark scale_factor log_messages_file
    connection_threads output_file w = (res, w1) ->
  METRICS_FILES w1
  = default (METRICS_FILES w)
      (list_remove (metrics_file_for LOG_SERIALIZER_CSV RECOVERY_MANAGER_CSV test_type)
         (METRICS_FILES w))
  /\ (metrics_file_for LOG_SERIALIZER_CSV RECOVERY_MANAGER_CSV test_type ∉ METRICS_FILES w1)
  /\ log_throughput LOG_SERIALIZER_CSV RECOVERY_MANAGER_CSV env' test_type build_type'
       replication_enabled' async_commit' oltp_benchmark' scale_factor' log_messages_file'
       connection_threads' output_file' w1
     = (Raise (mkExc ValueError "list.remove(x): x not in list"), w1).
Proof.
  intros Hnd Hcall.
  assert (Hlist : METRICS_FILES w1
                  = default (METRICS_FILES w)
                      (list_remove
                         (metrics_file_for LOG_SERIALIZER_CSV RECOVERY_MANAGER_CSV test_type)
                         (METRICS_FILES w))).
  { unfold log_throughput, metrics_file_for, bind, gets in *. simpl in Hcall.
    destruct (list_remove _ (METRICS_FILES w)) as [files'|] eqn:Hrm; simpl in *.
    - change files' with (METRICS_FILES (set_METRICS_FILES files' w)).
      change w1 with (snd (res, w1)). rewrite <- Hcall.
      apply run_servers_keeps_METRICS_FILES.
    - now inversion Hcall. }
  assert (Hnot : metrics_file_for LOG_SERIALIZER_CSV RECOVERY_MANAGER_CSV test_type
                 ∉ METRICS_FILES w1).
  { rewrite Hlist.
    destruct (list_remove _ (METRICS_FILES w)) as [files'|] eqn:Hrm; simpl.
    - eapply list_remove_NoDup; eassumption.
    - now apply list_remove_None. }
  split_all; [exact Hlist | exact Hnot |].
  apply list_remove_None in Hnot.
  unfold log_throughput, metrics_file_for, bind, gets in *. simpl in *.
  now rewrite Hnot.
Qed.

(** ** The statements at sample inputs *)

Lemma NoDup_two_nodes : NoDup (ids [primary0; replica1]).
Proof. apply (bool_decide_unpack _). vm_compute. exact I. Qed.



(** The example of the spec: 95 records in 300 microseconds, 950/3 records
    per millisecond. *)
Example spec_example_throughput :
  aggregate_log_throughput "out.csv" (results_world "out.csv" spec_example)
  = (Return tt,
     emit (LogAvgThroughput (Finite (950 # 3))) (results_world "out.csv" spec_example)).
Proof. reflexivity. Qed.






(** The calls of a primary and replica run whose replica raises a
    [RuntimeError] in [setup()]. *)
Example replica_setup_RuntimeError_trace :
  trace (snd (log_throughput log_serializer_csv recovery_manager_csv replica_fails_env
                PRIMARY "release" true false "ycsb" 1 "log_messages.txt" 4 (Some "out.csv")
                (fresh_world three_metrics_files)))
  = [Setup 0; Setup 1; Log ERROR "Unable to start database"; Teardown 0].
Proof. reflexivity. Qed.


Lemma runtime_error_cleanup_witness :
  exists res w',
    run_servers log_serializer_csv recovery_manager_csv replica_run_fails_env
      [primary0; replica1] log_serializer_csv "out.csv" (fresh_world other_metrics_files)
    = (res, w')
    /\ trace w'
       = trace (snd (start_servers log_serializer_csv recovery_manager_csv
                       replica_run_fails_env [primary0; replica1] log_serializer_csv
                       (fresh_world other_metrics_files)))
         ++ Log ERROR (exc_msg (mkExc RuntimeError "benchmark failed"))
            :: (Teardown <$> ids (attempted replica_run_fails_env
                                    (started (snd (start_servers log_serializer_csv
                                                     recovery_manager_csv replica_run_fails_env
                                                     [primary0; replica1] log_serializer_csv
                                                     (fresh_world other_metrics_files)))
                                       [primary0; replica1])))
    /\ attempted replica_run_fails_env
         (started (snd (start_servers log_serializer_csv recovery_manager_csv
                          replica_run_fails_env [primary0; replica1] log_serializer_csv
                          (fresh_world other_metrics_files)))
            [primary0; replica1])
       `prefix_of` started (snd (start_servers log_serializer_csv recovery_manager_csv
                                   replica_run_fails_env [primary0; replica1]
                                   log_serializer_csv (fresh_world other_metrics_files)))
                     [primary0; replica1]
    /\ (Forall (teardown_ok replica_run_fails_env)
          (started (snd (start_servers log_serializer_csv recovery_manager_csv
                           replica_run_fails_env [primary0; replica1] log_serializer_csv
                           (fresh_world other_metrics_files)))
             [primary0; replica1]) ->
        res = Return tt
        /\ attempted replica_run_fails_env
             (started (snd (start_servers log_serializer_csv recovery_manager_csv
                              replica_run_fails_env [primary0; replica1] log_serializer_csv
                              (fresh_world other_metrics_files)))
                [primary0; replica1])
           = started (snd (start_servers log_serializer_csv recovery_manager_csv
                             replica_run_fails_env [primary0; replica1] log_serializer_csv
                             (fresh_world other_metrics_files)))
               [primary0; replica1]
        /\ (forall s, s ∈ [primary0; replica1] ->
            node_id s ∈ running (snd (start_servers log_serializer_csv recovery_manager_csv
                                        replica_run_fails_env [primary0; replica1]
                                        log_serializer_csv
                                        (fresh_world other_metrics_files))) ->
            length (filter (fun i => i = node_id s)
                      (ids (attempted replica_run_fails_env
                              (started (snd (start_servers log_serializer_csv
                                               recovery_manager_csv replica_run_fails_env
                                               [primary0; replica1] log_serializer_csv
                                               (fresh_world other_metrics_files)))
                                 [primary0; replica1])))) = 1%nat)
        /\ (forall s, s ∈ [primary0; replica1] -> node_id s ∉ running w')).
Proof.
  apply runtime_error_cleanup.
  - exact NoDup_two_nodes.
  - reflexivity.
  - reflexivity.
Defined.

(** The calls of a primary and replica run whose replica raises a
    [RuntimeError] in [run()]: both nodes are torn down, primary first. *)
Example replica_run_RuntimeError_trace :
  trace (snd (log_throughput log_serializer_csv recovery_manager_csv replica_run_fails_env
                PRIMARY "release" true false "ycsb" 1 "log_messages.txt" 4 (Some "out.csv")
                (fresh_world three_metrics_files)))
  = [Setup 0; Setup 1; DeleteMetricsFile log_serializer_csv; Run 0; Run 1;
     Log ERROR "benchmark failed"; Teardown 0; Teardown 1].
Proof. reflexivity. Qed.

(** C4, counterexample.  In a primary and replica run, [run()] of the
    replica raises an [Exception] that is not a [RuntimeError]: the
    exception leaves [log_throughput] with both servers alive and no
    teardown called. *)
Lemma run_Exception_no_teardown :
  fst (log_throughput log_serializer_csv recovery_manager_csv replica_run_Exception_env
         PRIMARY "release" true false "ycsb" 1 "log_messages.txt" 4 (Some "out.csv")
         (fresh_world three_metrics_files))
  = Raise (mkExc Exception "Error in killing PID")
  /\ trace (snd (log_throughput log_serializer_csv recovery_manager_csv
                   replica_run_Exception_env PRIMARY "release" true false "ycsb" 1
                   "log_messages.txt" 4 (Some "out.csv") (fresh_world three_metrics_files)))
     = [Setup 0; Setup 1; DeleteMetricsFile log_serializer_csv; Run 0; Run 1]
  /\ teardown_order
       (trace (snd (log_throughput log_serializer_csv recovery_manager_csv
                      replica_run_Exception_env PRIMARY "release" true false "ycsb" 1
                      "log_messages.txt" 4 (Some "out.csv")
                      (fresh_world three_metrics_files))))
     = []
  /\ elements (running (snd (log_throughput log_serializer_csv recovery_manager_csv
                               replica_run_Exception_env PRIMARY "release" true false "ycsb"
                               1 "log_messages.txt" 4 (Some "out.csv")
                               (fresh_world three_metrics_files))))
     = [1%nat; 0%nat].
Proof. split_all; reflexivity. Qed.

Lemma sync_failure_is_not_fatal_witness :
  exists w',
    run_servers log_serializer_csv recovery_manager_csv timeout_env [primary0; replica1]
      log_serializer_csv "out.csv" (fresh_world other_metrics_files) = (Return tt, w')
    /\ trace w' = trace (fresh_world other_metrics_files)
                    ++ (Setup <$> ids [primary0; replica1])
                    ++ [DeleteMetricsFile log_serializer_csv]
                    ++ (Run <$> ids [primary0; replica1])
                    ++ [ReplicaSync 0
                          (node_id <$> filter (fun s => isinstance_ReplicaNode s = true)
                                         [primary0; replica1]);
                        Log WARN ("Syncing databases failed: "
                                  +:+ exc_msg (mkExc Exception "replica sync timed out"))]
                    ++ (Teardown <$> ids [primary0; replica1]) ++ [CreateResultsDir]
                    ++ (DeleteMetricsFile <$> METRICS_FILES (fresh_world other_metrics_files))
                    ++ [MoveMetricsFile log_serializer_csv "out.csv";
                        LogAvgThroughput (spec_throughput spec_example)]
    /\ results_dir w' !! "out.csv" = Some spec_example
    /\ (forall s, s ∈ [primary0; replica1] -> node_id s ∉ running w').
Proof.
  apply sync_failure_is_not_fatal.
  - exact NoDup_two_nodes.
  - repeat constructor.
  - repeat constructor.
  - repeat constructor.
  - simpl. lia.
  - reflexivity.
  - reflexivity.
  - reflexivity.
  - apply (bool_decide_unpack _). vm_compute. exact I.
  - reflexivity.
  - simpl. lia.
Defined.

(** The calls of a primary and replica run whose synchronisation times
    out. *)
Example sync_timeout_trace :
  log_throughput log_serializer_csv recovery_manager_csv timeout_env
    PRIMARY "release" true false "ycsb" 1 "log_messages.txt" 4 (Some "out.csv")
    (fresh_world three_metrics_files)
  = (Return tt,
     mkWorld other_metrics_files ∅ {["out.csv" := spec_example]} ∅
       [Setup 0; Setup 1; DeleteMetricsFile log_serializer_csv; Run 0; Run 1;
        ReplicaSync 0 [1%nat];
        Log WARN "Syncing databases failed: replica sync timed out";
        Teardown 0; Teardown 1; CreateResultsDir;
        DeleteMetricsFile "disk_log_consumer_task.csv";
        DeleteMetricsFile recovery_manager_csv;
        MoveMetricsFile log_serializer_csv "out.csv";
        LogAvgThroughput (Finite (950 # 3))]).
Proof. vm_compute. reflexivity. Qed.

Lemma sync_servers_two_primaries_raise_witness :
  sync_servers calm_env [primary0; primary1] (fresh_world three_metrics_files)
  = (Raise (mkExc RuntimeError "Should never have multiple primaries running at once"),
     fresh_world three_metrics_files)
  /\ forall p replicas,
       ReplicaSync p replicas
       ∈ trace (snd (sync_servers calm_env [primary0; primary1]
                       (fresh_world three_metrics_files))) ->
       ReplicaSync p replicas ∈ trace (fresh_world three_metrics_files).
Proof. apply sync_servers_two_primaries_raise. vm_compute. lia. Defined.



Lemma sync_servers_no_replica_witness :
  sync_servers calm_env [primary0] (fresh_world three_metrics_files)
  = (if (2 <=? length (filter (fun s => isinstance_PrimaryNode s = true) [primary0]))%nat
     then Raise (mkExc RuntimeError "Should never have multiple primaries running at once")
     else Return tt, fresh_world three_metrics_files).
Proof. apply sync_servers_no_replica. reflexivity. Defined.

(** C8, counterexample.  Two primaries and no replica: [sync_servers] does
    not return, it raises. *)
Lemma sync_servers_two_primaries_no_replica :
  filter (fun s => isinstance_ReplicaNode s = true) [primary0; primary1] = []
  /\ sync_servers calm_env [primary0; primary1] (fresh_world three_metrics_files)
     = (Raise (mkExc RuntimeError "Should never have multiple primaries running at once"),
        fresh_world three_metrics_files)
  /\ fst (sync_servers calm_env [primary0; primary1] (fresh_world three_metrics_files))
     <> Return tt.
Proof. split_all; try reflexivity. discriminate. Qed.

Lemma teardown_follows_setup_order_witness :
  (forall pre s post e,
      [primary0; replica1] = pre ++ s :: post ->
      (forall x, x ∈ [primary0; replica1] ->
                 node_id x ∉ running (fresh_world other_metrics_files)) ->
      Forall (setup_ok calm_env) pre ->
      setup_raises (behaviour calm_env (node_id s)) = Some e ->
      is_RuntimeError e = true ->
      exists res w',
        run_servers log_serializer_csv recovery_manager_csv calm_env [primary0; replica1]
          log_serializer_csv "out.csv" (fresh_world other_metrics_files) = (res, w')
        /\ setup_order (new_events (trace (fresh_world other_metrics_files)) (trace w'))
           = ids (pre ++ [s])
        /\ teardown_order (new_events (trace (fresh_world other_metrics_files)) (trace w'))
           `prefix_of` setup_order (new_events (trace (fresh_world other_metrics_files))
                                      (trace w')))
  /\ (forall rows,
      Forall (setup_ok calm_env) [primary0; replica1] ->
      Forall (run_ok calm_env) [primary0; replica1] ->
      Forall (teardown_ok calm_env) [primary0; replica1] ->
      (forall e, replica_sync_raises calm_env = Some e -> is_Exception e = true) ->
      log_serializer_csv ∉ METRICS_FILES (fresh_world other_metrics_files) ->
      written log_serializer_csv recovery_manager_csv calm_env log_serializer_csv
        [primary0; replica1] None = Some rows ->
      exists w',
        run_servers log_serializer_csv recovery_manager_csv calm_env [primary0; replica1]
          log_serializer_csv "out.csv" (fresh_world other_metrics_files) = (Return tt, w')
        /\ setup_order (new_events (trace (fresh_world other_metrics_files)) (trace w'))
           = ids [primary0; replica1]
        /\ teardown_order (new_events (trace (fresh_world other_metrics_files)) (trace w'))
           = ids [primary0; replica1])
  /\ (forall build_type async_commit oltp_benchmark scale_factor log_messages_file
             connection_threads,
      isinstance_PrimaryNode
        <$> get_servers PRIMARY build_type true async_commit oltp_benchmark scale_factor
              log_messages_file connection_threads
      = [true; false]).
Proof. apply teardown_follows_setup_order. exact NoDup_two_nodes. Defined.

(** C9, counterexample.  A primary and replica run sets up the primary, then
    the replica, and tears them down in that same order, at the end of the
    run and in the cleanup after a [RuntimeError] of [run()]: the primary is
    torn down first, not last. *)
Lemma primary_is_torn_down_first :
  get_servers PRIMARY "release" true false "ycsb" 1 "log_messages.txt" 4
  = [primary0; replica1]
  /\ setup_order
       (trace (snd (log_throughput log_serializer_csv recovery_manager_csv calm_env
                      PRIMARY "release" true false "ycsb" 1 "log_messages.txt" 4
                      (Some "out.csv") (fresh_world three_metrics_files))))
     = [0; 1]%nat
  /\ teardown_order
       (trace (snd (log_throughput log_serializer_csv recovery_manager_csv calm_env
                      PRIMARY "release" true false "ycsb" 1 "log_messages.txt" 4
                      (Some "out.csv") (fresh_world three_metrics_files))))
     = [0; 1]%nat
  /\ teardown_order
       (trace (snd (log_throughput log_serializer_csv recovery_manager_csv
                      replica_run_fails_env PRIMARY "release" true false "ycsb" 1
                      "log_messages.txt" 4 (Some "out.csv")
                      (fresh_world three_metrics_files))))
     = [0; 1]%nat
  /\ [0; 1]%nat <> reverse [0; 1]%nat.
Proof. split_all; try reflexivity. discriminate. Qed.

Lemma second_call_raises_ValueError_witness :
  METRICS_FILES
    (snd (log_throughput log_serializer_csv recovery_manager_csv calm_env PRIMARY
            "release" true false "ycsb" 1 "log_messages.txt" 4 None
            (fresh_world three_metrics_files)))
  = default (METRICS_FILES (fresh_world three_metrics_files))
      (list_remove (metrics_file_for log_serializer_csv recovery_manager_csv PRIMARY)
         (METRICS_FILES (fresh_world three_metrics_files)))
  /\ (metrics_file_for log_serializer_csv recovery_manager_csv PRIMARY
      ∉ METRICS_FILES
          (snd (log_throughput log_serializer_csv recovery_manager_csv calm_env PRIMARY
                  "release" true false "ycsb" 1 "log_messages.txt" 4 None
                  (fresh_world three_metrics_files))))
  /\ log_throughput log_serializer_csv recovery_manager_csv timeout_env PRIMARY
       "debug" false true "tpcc" 2 "log_messages.txt" 8 (Some "out.csv")
       (snd (log_throughput log_serializer_csv recovery_manager_csv calm_env PRIMARY
               "release" true false "ycsb" 1 "log_messages.txt" 4 None
               (fresh_world three_metrics_files)))
     = (Raise (mkExc ValueError "list.remove(x): x not in list"),
        snd (log_throughput log_serializer_csv recovery_manager_csv calm_env PRIMARY
               "release" true false "ycsb" 1 "log_messages.txt" 4 None
               (fresh_world three_metrics_files))).
Proof.
  apply (second_call_raises_ValueError log_serializer_csv recovery_manager_csv calm_env
           timeout_env PRIMARY "release" true false "ycsb" 1 "log_messages.txt" 4 None
           "debug" false true "tpcc" 2 "log_messages.txt" 8 (Some "out.csv"%string)
           (fresh_world three_metrics_files)
           (fst (log_throughput log_serializer_csv recovery_manager_csv calm_env PRIMARY
                   "release" true false "ycsb" 1 "log_messages.txt" 4 None
                   (fresh_world three_metrics_files)))).
  - apply (bool_decide_unpack _). vm_compute. exact I.
  - apply surjective_pairing.
Defined.

(** Two calls in one process: the first returns and leaves the list without
    the file of the primary; the second raises. *)
Example second_call_trace :
  METRICS_FILES
    (snd (log_throughput log_serializer_csv recovery_manager_csv calm_env PRIMARY
            "release" true false "ycsb" 1 "log_messages.txt" 4 None
            (fresh_world three_metrics_files)))
  = other_metrics_files
  /\ fst (log_throughput log_serializer_csv recovery_manager_csv calm_env PRIMARY
            "release" true false "ycsb" 1 "log_messages.txt" 4 None
            (fresh_world three_metrics_files))
     = Return tt
  /\ fst (log_throughput log_serializer_csv recovery_manager_csv calm_env PRIMARY
            "release" true false "ycsb" 1 "log_messages.txt" 4 None
            (snd (log_throughput log_serializer_csv recovery_manager_csv calm_env PRIMARY
                    "release" true false "ycsb" 1 "log_messages.txt" 4 None
                    (fresh_world three_metrics_files))))
     = Raise (mkExc ValueError "list.remove(x): x not in list").
Proof. split_all; reflexivity. Qed.

(** ** The further statements at sample inputs *)




Lemma run_only_after_every_setup_witness :
  DeleteMetricsFile log_serializer_csv
  ∈ [Setup 0; Setup 1; DeleteMetricsFile log_serializer_csv; Run 0]
  /\ (forall s, s ∈ [primary0; replica1] ->
      Setup (node_id s) ∈ [Setup 0; Setup 1; DeleteMetricsFile log_serializer_csv; Run 0]).
Proof.
  apply (run_only_after_every_setup log_serializer_csv recovery_manager_csv
           replica_run_fails_env [primary0; replica1] log_serializer_csv "out.csv"
           (fresh_world other_metrics_files)
           [Setup 0; Setup 1; DeleteMetricsFile log_serializer_csv; Run 0]
           [Log ERROR "benchmark failed"; Teardown 0; Teardown 1] 1%nat).
  reflexivity.
Defined.

Lemma teardown_only_after_own_setup_witness :
  Setup 1
  ∈ [Setup 0; Setup 1; DeleteMetricsFile log_serializer_csv; Run 0; Run 1;
     Log ERROR "benchmark failed"; Teardown 0].
Proof.
  apply (teardown_only_after_own_setup log_serializer_csv recovery_manager_csv
           replica_run_fails_env [primary0; replica1] log_serializer_csv "out.csv"
           (fresh_world other_metrics_files)
           [Setup 0; Setup 1; DeleteMetricsFile log_serializer_csv; Run 0; Run 1;
            Log ERROR "benchmark failed"; Teardown 0]
           [] 1%nat).
  - intros s _. apply not_elem_of_empty.
  - reflexivity.
Defined.

Lemma report_only_after_every_teardown_witness :
  is_report_event (MoveMetricsFile log_serializer_csv "out.csv")
  /\ forall s, s ∈ [primary0; replica1] ->
    Setup (node_id s)
    ∈ [Setup 0; Setup 1; DeleteMetricsFile log_serializer_csv; Run 0; Run 1;
       ReplicaSync 0 [1%nat]; Log WARN "Syncing databases failed: replica sync timed out";
       Teardown 0; Teardown 1; CreateResultsDir;
       DeleteMetricsFile "disk_log_consumer_task.csv"; DeleteMetricsFile recovery_manager_csv]
    /\ Run (node_id s)
       ∈ [Setup 0; Setup 1; DeleteMetricsFile log_serializer_csv; Run 0; Run 1;
          ReplicaSync 0 [1%nat]; Log WARN "Syncing databases failed: replica sync timed out";
          Teardown 0; Teardown 1; CreateResultsDir;
          DeleteMetricsFile "disk_log_consumer_task.csv";
          DeleteMetricsFile recovery_manager_csv]
    /\ Teardown (node_id s)
       ∈ [Setup 0; Setup 1; DeleteMetricsFile log_serializer_csv; Run 0; Run 1;
          ReplicaSync 0 [1%nat]; Log WARN "Syncing databases failed: replica sync timed out";
          Teardown 0; Teardown 1; CreateResultsDir;
          DeleteMetricsFile "disk_log_consumer_task.csv";
          DeleteMetricsFile recovery_manager_csv].
Proof.
  split; [exact I|].
  apply (report_only_after_every_teardown log_serializer_csv recovery_manager_csv
           timeout_env [primary0; replica1] log_serializer_csv "out.csv"
           (fresh_world other_metrics_files)
           [Setup 0; Setup 1; DeleteMetricsFile log_serializer_csv; Run 0; Run 1;
            ReplicaSync 0 [1%nat]; Log WARN "Syncing databases failed: replica sync timed out";
            Teardown 0; Teardown 1; CreateResultsDir;
            DeleteMetricsFile "disk_log_consumer_task.csv";
            DeleteMetricsFile recovery_manager_csv]
           [LogAvgThroughput (Finite (950 # 3))]
           (MoveMetricsFile log_serializer_csv "out.csv")).
  - exact I.
  - vm_compute. reflexivity.
Defined.

Lemma return_leaves_no_server_alive_witness :
  fst (run_servers log_serializer_csv recovery_manager_csv replica_run_fails_env
         [primary0; replica1] log_serializer_csv "out.csv"
         (fresh_world other_metrics_files))
  = Return tt
  /\ forall s, s ∈ [primary0; replica1] ->
    node_id s
    ∉ running (snd (run_servers log_serializer_csv recovery_manager_csv replica_run_fails_env
                      [primary0; replica1] log_serializer_csv "out.csv"
                      (fresh_world other_metrics_files))).
Proof.
  split; [reflexivity|].
  apply (return_leaves_no_server_alive log_serializer_csv recovery_manager_csv
           replica_run_fails_env [primary0; replica1] log_serializer_csv "out.csv"
           (fresh_world other_metrics_files)).
  reflexivity.
Defined.

Lemma sync_only_between_runs_and_teardowns_witness :
  (forall s, s ∈ [primary0; replica1] ->
     Setup (node_id s)
     ∈ [Setup 0; Setup 1; DeleteMetricsFile log_serializer_csv; Run 0; Run 1]
     /\ Run (node_id s)
        ∈ [Setup 0; Setup 1; DeleteMetricsFile log_serializer_csv; Run 0; Run 1])
  /\ (forall j,
        Teardown j ∉ [Setup 0; Setup 1; DeleteMetricsFile log_serializer_csv; Run 0; Run 1]).
Proof.
  apply (sync_only_between_runs_and_teardowns log_serializer_csv recovery_manager_csv
           timeout_env [primary0; replica1] log_serializer_csv "out.csv"
           (fresh_world other_metrics_files)
           [Setup 0; Setup 1; DeleteMetricsFile log_serializer_csv; Run 0; Run 1]
           [Log WARN "Syncing databases failed: replica sync timed out";
            Teardown 0; Teardown 1; CreateResultsDir;
            DeleteMetricsFile "disk_log_consumer_task.csv";
            DeleteMetricsFile recovery_manager_csv;
            MoveMetricsFile log_serializer_csv "out.csv";
            LogAvgThroughput (Finite (950 # 3))]
           0%nat [1%nat]).
  vm_compute. reflexivity.
Defined.

Lemma healthy_run_result_file_witness :
  exists w',
    log_throughput log_serializer_csv recovery_manager_csv calm_env PRIMARY
      "release" true false "ycsb" 1 "log_messages.txt" 4 None
      (fresh_world three_metrics_files)
    = (Return tt, w')
    /\ results_dir w'
       = <[default_output_file PRIMARY (time_time calm_env)
           := run_samples (behaviour calm_env 0)]>
           (results_dir (fresh_world three_metrics_files))
    /\ last (trace w') = Some (aggregate_event (run_samples (behaviour calm_env 0))).
Proof.
  apply (healthy_run_result_file log_serializer_csv recovery_manager_csv calm_env PRIMARY
           "release" true false "ycsb" 1 "log_messages.txt" 4 None
           (fresh_world three_metrics_files)).
  - discriminate.
  - apply (bool_decide_unpack _). vm_compute. exact I.
  - apply (bool_decide_unpack _). vm_compute. exact I.
  - intros i. split_all; reflexivity.
  - intros e H. discriminate H.
Defined.
